(** * Countdown: the timer component of src/components/Countdown.tsx

    The component keeps four pieces of React state ([duration], [timeLeft],
    [isActive], [isPaused]) and one mutable ref ([timerRef]) that holds the
    handle of the interval started by its effect.  This file embeds the
    component as a state machine over an explicit component state that also
    carries the host's table of live intervals, so that "the interval was
    released" and "at most one interval is live" are statements about data.

    Numbers.  The host's numbers are modelled by [number]: NaN, the two
    infinities and the finite values, the latter kept as exact rationals in
    lowest terms.  Reading a number from text rounds to the nearest double
    (ties to even, overflow to Infinity, underflow to 0), as the host does.
    Subtraction, division and remainder are exact: they agree with the host
    whenever the exact result is itself a double, which covers the integers
    of magnitude at most 2^53 and the multiples of 2^-j (j <= 52) of magnitude
    at most 2^(53-j).  The properties that compute with TimeLeft are stated on
    such values.  The sign of zero is not represented.

    Strings are byte strings holding UTF-8 text, as string literals are; a
    byte 160 standing alone is read as the no-break space as well. *)

From Stdlib Require Import ZArith QArith Qround Qreduction Qcanon Lqa String Ascii List Lia Bool.
From stdpp Require Import gmap.

Local Open Scope Z_scope.

(** ** Numbers *)

Module Num.

Inductive number : Type :=
| NaN
| PosInf
| NegInf
| Fin (q : Q).

Definition of_Z (z : Z) : number := Fin (inject_Z z).

Definition zero : number := of_Z 0.
Definition one : number := of_Z 1.

(** [isNaN(x)] *)
Definition isNaN (x : number) : bool :=
  match x with NaN => true | _ => false end.

(** Three-way comparison; [None] when an operand is NaN, in which case every
    one of [<], [<=], [>], [>=] is false. *)
Definition compare (a b : number) : option comparison :=
  match a, b with
  | NaN, _ | _, NaN => None
  | PosInf, PosInf => Some Eq
  | PosInf, _ => Some Gt
  | _, PosInf => Some Lt
  | NegInf, NegInf => Some Eq
  | NegInf, _ => Some Lt
  | _, NegInf => Some Gt
  | Fin p, Fin q => Some (Qcompare p q)
  end.

(** [a < b] *)
Definition ltb (a b : number) : bool :=
  match compare a b with Some Lt => true | _ => false end.

(** [a <= b] *)
Definition leb (a b : number) : bool :=
  match compare a b with Some Lt | Some Eq => true | _ => false end.

(** [a > b] *)
Definition gtb (a b : number) : bool := ltb b a.

(** [a - b], without rounding: the host's result whenever the exact
    difference is a double. *)
Definition sub (a b : number) : number :=
  match a, b with
  | NaN, _ | _, NaN => NaN
  | PosInf, PosInf | NegInf, NegInf => NaN
  | PosInf, _ | _, NegInf => PosInf
  | NegInf, _ | _, PosInf => NegInf
  | Fin p, Fin q => Fin (Qred (p - q))
  end.

(** [a / b]; the zero divisor is read as +0. *)
Definition div (a b : number) : number :=
  match a, b with
  | NaN, _ | _, NaN => NaN
  | (PosInf | NegInf), (PosInf | NegInf) => NaN
  | PosInf, Fin q => if Qle_bool 0 q then PosInf else NegInf
  | NegInf, Fin q => if Qle_bool 0 q then NegInf else PosInf
  | Fin _, (PosInf | NegInf) => zero
  | Fin p, Fin q =>
      if Qeq_bool q 0 then
        match Qcompare p 0 with Eq => NaN | Gt => PosInf | Lt => NegInf end
      else Fin (Qred (p / q))
  end.

(** Truncation toward zero of a rational, as an integer. *)
Definition Qtrunc (q : Q) : Z :=
  if Qle_bool 0 q then Qfloor q else Qceiling q.

(** [a % b]: the remainder has the sign of the dividend. *)
Definition rem (a b : number) : number :=
  match a, b with
  | NaN, _ | _, NaN => NaN
  | (PosInf | NegInf), _ => NaN
  | Fin p, (PosInf | NegInf) => Fin p
  | Fin p, Fin q =>
      if Qeq_bool q 0 then NaN
      else Fin (Qred (p - q * inject_Z (Qtrunc (p / q))))
  end.

(** [Math.floor(x)] *)
Definition Math_floor (x : number) : number :=
  match x with
  | Fin q => of_Z (Qfloor q)
  | _ => x
  end.

End Num.

Export Num.

(** ** Strings and the host's conversions *)

Module Host.

Local Open Scope char_scope.

Definition chars (s : string) : list ascii := list_ascii_of_string s.
Definition text (l : list ascii) : string := string_of_list_ascii l.

(** The white space the string-to-number conversion trims: TAB, LF, VT, FF,
    CR, space, and in UTF-8 the no-break space U+00A0, U+1680, U+2000 to
    U+200A, the line and paragraph separators U+2028 and U+2029, U+202F,
    U+205F, U+3000 and the byte-order mark U+FEFF.  Longer sequences come
    first. *)
Definition white_space : list (list N) :=
  ([225; 154; 128] :: [226; 128; 128] :: [226; 128; 129] :: [226; 128; 130]
   :: [226; 128; 131] :: [226; 128; 132] :: [226; 128; 133]
   :: [226; 128; 134] :: [226; 128; 135] :: [226; 128; 136]
   :: [226; 128; 137] :: [226; 128; 138] :: [226; 128; 168]
   :: [226; 128; 169] :: [226; 128; 175] :: [226; 129; 159]
   :: [227; 128; 128] :: [239; 187; 191] :: [194; 160]
   :: [9] :: [10] :: [11] :: [12] :: [13] :: [32] :: [160] :: [])%N.

(** [l] without the prefix [p], when it has it. *)
Fixpoint strip_prefix (p : list N) (l : list ascii) : option (list ascii) :=
  match p, l with
  | [], _ => Some l
  | b :: p', c :: l' =>
      if (N_of_ascii c =? b)%N then strip_prefix p' l' else None
  | _ :: _, [] => None
  end.

(** [l] without one leading white space, when it starts with one. *)
Fixpoint strip_space (ws : list (list N)) (l : list ascii)
  : option (list ascii) :=
  match ws with
  | [] => None
  | p :: ws' =>
      match strip_prefix p l with
      | Some l' => Some l'
      | None => strip_space ws' l
      end
  end.

Fixpoint trim_with (ws : list (list N)) (fuel : nat) (l : list ascii)
  : list ascii :=
  match fuel with
  | O => l
  | S f =>
      match strip_space ws l with
      | Some l' => trim_with ws f l'
      | None => l
      end
  end.

Definition trim_start (l : list ascii) : list ascii :=
  trim_with white_space (List.length l) l.

(** Trailing white space is leading white space of the reversed text, each
    sequence reversed. *)
Definition trim_end (l : list ascii) : list ascii :=
  rev (trim_with (List.map (@rev N) white_space) (List.length l) (rev l)).

Definition trim (l : list ascii) : list ascii := trim_end (trim_start l).

(** Value of a digit in the given radix. *)
Definition digit_value (radix : N) (c : ascii) : option N :=
  let n := N_of_ascii c in
  let v :=
    if (48 <=? n)%N && (n <=? 57)%N then Some (n - 48)%N
    else if (97 <=? n)%N && (n <=? 122)%N then Some (n - 87)%N
    else if (65 <=? n)%N && (n <=? 90)%N then Some (n - 55)%N
    else None in
  match v with
  | Some d => if (d <? radix)%N then Some d else None
  | None => None
  end.

(** The longest prefix of digits, with the rest of the input. *)
Fixpoint span_digits (radix : N) (l : list ascii) : list N * list ascii :=
  match l with
  | c :: l' =>
      match digit_value radix c with
      | Some d => let (ds, r) := span_digits radix l' in (d :: ds, r)
      | None => ([], l)
      end
  | [] => ([], [])
  end.

Definition digits_value (radix : N) (ds : list N) : N :=
  fold_left (fun acc d => acc * radix + d)%N ds 0%N.

(** [2^e] as a rational. *)
Definition Qpow2 (e : Z) : Q :=
  if (0 <=? e)%Z then inject_Z (2 ^ e) else Qmake 1 (Z.to_pos (2 ^ (- e))).

(** For [q > 0], the [e] with [2^e <= q < 2^(e+1)]. *)
Definition Qlog2 (q : Q) : Z :=
  let e := (Z.log2 (Qnum q) - Z.log2 (Zpos (Qden q)))%Z in
  if Qle_bool (Qpow2 e) q then e else (e - 1)%Z.

(** The nearest integer, a tie going to the even one. *)
Definition round_half_even (q : Q) : Z :=
  let f := Qfloor q in
  match Qcompare (q - inject_Z f)%Q (1 # 2) with
  | Lt => f
  | Gt => (f + 1)%Z
  | Eq => if Z.even f then f else (f + 1)%Z
  end.

(** The double nearest to [q >= 0]: 53 significant bits, exponents from
    -1022 (below which the spacing stays 2^-1074), a tie going to the even
    significand; [None] when the result is 2^1024 or more. *)
Definition round64 (q : Q) : option Q :=
  let e := Z.max (Qlog2 q) (-1022)%Z in
  let u := Qpow2 (e - 52)%Z in
  let v := (inject_Z (round_half_even (q / u)) * u)%Q in
  if Qle_bool (Qpow2 1024) v then None else Some v.

(** The number a literal of magnitude [q] and the given sign denotes. *)
Definition finite_or_inf (negative : bool) (q : Q) : number :=
  match round64 q with
  | None => if negative then NegInf else PosInf
  | Some v => Fin (Qred (if negative then - v else v))
  end.

(** [0x], [0o] and [0b] literals (no sign allowed). *)
Definition non_decimal (l : list ascii) : option number :=
  match l with
  | "0" :: p :: ds =>
      let radix :=
        match p with
        | "x" | "X" => Some 16%N
        | "o" | "O" => Some 8%N
        | "b" | "B" => Some 2%N
        | _ => None
        end in
      match radix with
      | Some r =>
          match span_digits r ds with
          | (d :: ds', []) =>
              Some (finite_or_inf false
                      (inject_Z (Z.of_N (digits_value r (d :: ds')))))
          | _ => Some NaN
          end
      | None => None
      end
  | _ => None
  end.

(** The exponent part [e±ddd] of a decimal literal, up to the end of input. *)
Definition exponent_part (l : list ascii) : option Z :=
  match l with
  | [] => Some 0%Z
  | ("e" | "E") :: r =>
      let '(neg, r') :=
        match r with
        | "+" :: r' => (false, r')
        | "-" :: r' => (true, r')
        | _ => (false, r)
        end in
      match span_digits 10 r' with
      | (d :: ds, []) =>
          let e := Z.of_N (digits_value 10 (d :: ds)) in
          Some (if neg then (- e)%Z else e)
      | _ => None
      end
  | _ => None
  end.

(** [m * 10^e] as an exact rational. *)
Definition scale10 (m : Z) (e : Z) : Q :=
  if (0 <=? e)%Z then inject_Z (m * 10 ^ e)%Z
  else Qmake m (Z.to_pos (10 ^ (- e))%Z).

(** An unsigned decimal literal: [Infinity], [ddd], [ddd.], [ddd.ddd] or
    [.ddd], each of the last four with an optional exponent. *)
Definition unsigned_decimal (negative : bool) (l : list ascii) : number :=
  if String.eqb (text l) "Infinity"
  then (if negative then NegInf else PosInf)
  else
    let (ip, r1) := span_digits 10 l in
    let (fp, r2) :=
      match r1 with
      | "." :: r => span_digits 10 r
      | _ => ([], r1)
      end in
    match ip ++ fp with
    | [] => NaN
    | ds =>
        match exponent_part r2 with
        | Some e =>
            finite_or_inf negative
              (scale10 (Z.of_N (digits_value 10 ds))
                       (e - Z.of_nat (List.length fp))%Z)
        | None => NaN
        end
    end.

(** [Number(s)] for a string [s]. *)
Definition ToNumber (s : string) : number :=
  match trim (chars s) with
  | [] => zero
  | l =>
      match non_decimal l with
      | Some n => n
      | None =>
          match l with
          | "+" :: l' => unsigned_decimal false l'
          | "-" :: l' => unsigned_decimal true l'
          | _ => unsigned_decimal false l
          end
      end
  end.

(** *** Number to string *)

Definition digit_char (d : N) : ascii := ascii_of_N (48 + d).

Fixpoint digits_aux (fuel : nat) (n : N) (acc : list ascii) : list ascii :=
  match fuel with
  | O => acc
  | S f =>
      let acc' := digit_char (n mod 10) :: acc in
      if (n / 10 =? 0)%N then acc' else digits_aux f (n / 10) acc'
  end.

(** The decimal digits of a natural number, most significant first, without
    leading zeros ([0] prints as one digit). *)
Definition decimal_digits (n : N) : list ascii :=
  digits_aux (S (N.to_nat (N.log2 n))) n [].

(** Least [j >= 1] with [b <= a * 10^j]. *)
Fixpoint shift_count (fuel : nat) (a b : Z) : nat :=
  match fuel with
  | O => 1
  | S f => if (b <=? a * 10)%Z then 1%nat else S (shift_count f (a * 10)%Z b)
  end.

(** For [q > 0], the [n] with [10^(n-1) <= q < 10^n]. *)
Definition decimal_exponent (q : Q) : Z :=
  let a := Qnum q in
  let b := Zpos (Qden q) in
  if (b <=? a)%Z
  then Z.of_nat (List.length (decimal_digits (Z.to_N (a / b))))
  else (1 - Z.of_nat (shift_count (Pos.size_nat (Qden q)) a b))%Z.

Fixpoint strip_zeros (fuel : nat) (s : Z) : Z :=
  match fuel with
  | O => s
  | S f =>
      if (s mod 10 =? 0)%Z && negb (s =? 0)%Z
      then strip_zeros f (s / 10)%Z else s
  end.

(** The significant digits of [q > 0], at most 17 of them, with trailing
    zeros removed. *)
Definition significand (q : Q) (n : Z) : list ascii :=
  let e := (17 - n)%Z in
  let s17 := if (0 <=? e)%Z then Qfloor (q * inject_Z (10 ^ e))
             else Qfloor (q / inject_Z (10 ^ (- e))) in
  decimal_digits (Z.to_N (strip_zeros 17 s17)).

Definition zeros (n : Z) : list ascii := List.repeat "0" (Z.to_nat n).

(** Number::toString for a positive finite value. *)
Definition positive_to_chars (q : Q) : list ascii :=
  if Pos.eqb (Qden (Qred q)) 1 && Qle_bool q (inject_Z (10 ^ 21 - 1))
  then decimal_digits (Z.to_N (Qnum (Qred q)))
  else
    let n := decimal_exponent q in
    let ds := significand q n in
    let k := Z.of_nat (List.length ds) in
    if (k <=? n)%Z && (n <=? 21)%Z then ds ++ zeros (n - k)
    else if (0 <? n)%Z && (n <=? 21)%Z
    then List.firstn (Z.to_nat n) ds ++ "." :: List.skipn (Z.to_nat n) ds
    else if (-6 <? n)%Z && (n <=? 0)%Z
    then "0" :: "." :: zeros (- n) ++ ds
    else
      let e := (n - 1)%Z in
      let mantissa :=
        match ds with
        | d :: (_ :: _) as rest => d :: "." :: rest
        | _ => ds
        end in
      mantissa ++ "e" :: (if (e <? 0)%Z then "-" else "+")
               :: decimal_digits (Z.to_N (Z.abs e)).

(** [String(x)] for a number [x]. *)
Definition ToString (x : number) : string :=
  match x with
  | NaN => "NaN"%string
  | PosInf => "Infinity"%string
  | NegInf => "-Infinity"%string
  | Fin q =>
      match Qcompare q 0 with
      | Eq => "0"%string
      | Gt => text (positive_to_chars q)
      | Lt => text ("-" :: positive_to_chars (- q))
      end
  end.

(** [s.padStart(targetLength, padString)] *)
Definition padStart (s : string) (targetLength : nat) (padString : string)
  : string :=
  let len := String.length s in
  if (targetLength <=? len)%nat then s
  else
    match padString with
    | EmptyString => s
    | _ =>
        let fillLen := (targetLength - len)%nat in
        let filler :=
          List.firstn fillLen
            (List.concat (List.repeat (chars padString) fillLen)) in
        String.append (text filler) s
    end.

End Host.

Export Host.

(** ** The component *)

Module Countdown.

(** The type [number | string] of the [duration] state. *)
Inductive duration_value : Type :=
| DNum (n : number)
| DStr (s : string).

(** Interval handles, as the host hands them out: non-zero identifiers. *)
Definition timer : Type := positive.

(** The component instance: its React state, its ref, and the part of the
    host it acts on (the live intervals and the next handle). *)
Record state : Type := mkState {
  duration : duration_value;
  timeLeft : number;
  isActive : bool;
  isPaused : bool;
  timerRef : option timer;
  intervals : gset timer;
  nextTimer : timer
}.

Definition setDuration (d : duration_value) (s : state) : state :=
  mkState d (timeLeft s) (isActive s) (isPaused s) (timerRef s)
          (intervals s) (nextTimer s).

Definition setTimeLeft (t : number) (s : state) : state :=
  mkState (duration s) t (isActive s) (isPaused s) (timerRef s)
          (intervals s) (nextTimer s).

Definition setIsActive (b : bool) (s : state) : state :=
  mkState (duration s) (timeLeft s) b (isPaused s) (timerRef s)
          (intervals s) (nextTimer s).

Definition setIsPaused (b : bool) (s : state) : state :=
  mkState (duration s) (timeLeft s) (isActive s) b (timerRef s)
          (intervals s) (nextTimer s).

Definition setTimerRef (r : option timer) (s : state) : state :=
  mkState (duration s) (timeLeft s) (isActive s) (isPaused s) r
          (intervals s) (nextTimer s).

(** [clearInterval(t)] *)
Definition clearInterval (t : timer) (s : state) : state :=
  mkState (duration s) (timeLeft s) (isActive s) (isPaused s) (timerRef s)
          (intervals s ∖ {[t]}) (nextTimer s).

(** [setInterval(callback, 1000)]: a fresh handle, now live. *)
Definition setInterval (s : state) : timer * state :=
  let t := nextTimer s in
  (t, mkState (duration s) (timeLeft s) (isActive s) (isPaused s) (timerRef s)
              ({[t]} ∪ intervals s) (Pos.succ t)).

(** The block
    [if (timerRef.current) { clearInterval(timerRef.current);
                             timerRef.current = null; }]
    shared by the handlers and the effect's cleanup. *)
Definition releaseTimer (s : state) : state :=
  match timerRef s with
  | Some t => setTimerRef None (clearInterval t s)
  | None => s
  end.

(** Every handler reads the state of the render it was created in, so the
    values it tests and copies are those of the state it is applied to. *)

Definition handleSetDuration (s : state) : state :=
  match duration s with
  | DNum d =>
      if Num.gtb d zero then
        releaseTimer
          (setDuration (DStr "")
             (setIsPaused false (setIsActive false (setTimeLeft d s))))
      else s
  | DStr _ => s
  end.

Definition handleStart (s : state) : state :=
  if Num.gtb (timeLeft s) zero
  then setIsPaused false (setIsActive true s)
  else s.

Definition handlePause (s : state) : state :=
  if isActive s
  then releaseTimer (setIsActive false (setIsPaused true s))
  else s.

Definition handleReset (s : state) : state :=
  let d := match duration s with DNum d => d | DStr _ => zero end in
  releaseTimer (setTimeLeft d (setIsPaused false (setIsActive false s))).

Definition handleDurationChange (value : string) (s : state) : state :=
  let value := ToNumber value in
  if negb (isNaN value) then setDuration (DNum value) s
  else setDuration (DStr "") s.

(** The updater the interval callback passes to [setTimeLeft]. *)
Definition tick (s : state) : state :=
  let prevTime := timeLeft s in
  let s' := if Num.leb prevTime one then releaseTimer s else s in
  setTimeLeft (Num.sub prevTime one) s'.

(** The effect: its body, its cleanup and its dependencies. *)
Definition effect (s : state) : state :=
  if isActive s && negb (isPaused s)
  then let (t, s') := setInterval s in setTimerRef (Some t) s'
  else s.

Definition cleanup (s : state) : state := releaseTimer s.

Definition deps_changed (prev next : state) : bool :=
  negb (Bool.eqb (isActive prev) (isActive next)
        && Bool.eqb (isPaused prev) (isPaused next)).

(** After a render, the effect is re-run (cleanup first) when one of
    [isActive], [isPaused] differs from the previous render. *)
Definition commit (prev next : state) : state :=
  if deps_changed prev next then effect (cleanup next) else next.

(** Teardown of the component. *)
Definition unmount (s : state) : state := cleanup s.

(** What can happen to a mounted component. *)
Inductive event : Type :=
| Change (value : string)
| ClickSet
| ClickStart
| ClickPause
| ClickReset
| Tick (t : timer).

(** The state update of one event, before React commits it.  An interval
    that is not live does not fire. *)
Definition handle (e : event) (s : state) : state :=
  match e with
  | Change v => handleDurationChange v s
  | ClickSet => handleSetDuration s
  | ClickStart => handleStart s
  | ClickPause => handlePause s
  | ClickReset => handleReset s
  | Tick t => if decide (t ∈ intervals s) then tick s else s
  end.

Definition step (e : event) (s : state) : state := commit s (handle e s).

Fixpoint run (es : list event) (s : state) : state :=
  match es with
  | [] => s
  | e :: es' => run es' (step e s)
  end.

(** The state after mounting: the initial values of the hooks; the effect
    ran once and, the timer being inactive, started nothing. *)
Definition init : state :=
  effect (mkState (DStr "") zero false false None ∅ 1%positive).

Definition reachable (s : state) : Prop := exists es, s = run es init.

(** The three run states of the specification. *)
Inductive RunState : Type := Idle | Running | Paused.

Definition runState (s : state) : RunState :=
  if isActive s && negb (isPaused s) then Running
  else if isPaused s then Paused
  else Idle.

Definition formatTime (time : number) : string :=
  let minutes := Math_floor (Num.div time (of_Z 60)) in
  let seconds := Num.rem time (of_Z 60) in
  String.append (padStart (ToString minutes) 2 "0")
    (String.append ":" (padStart (ToString seconds) 2 "0")).

End Countdown.

Export Countdown.

(** ** Notions used to state the properties *)

Module Props.

(** The interval a ref holds, as a set of handles. *)
Definition held (r : option timer) : gset timer :=
  match r with
  | Some t => {[t]}
  | None => ∅
  end.

(** [x] clamped below at 0. *)
Definition floor0 (x : number) : number :=
  if Num.ltb x zero then zero else x.

(** A number greater than 0: a positive rational or +Infinity. *)
Definition positive_number (n : number) : Prop :=
  n = PosInf \/ exists q : Q, n = Fin q /\ (0 < q)%Q.

(** A finite number greater than 0. *)
Definition finite_positive (n : number) : Prop :=
  exists q : Q, n = Fin q /\ (0 < q)%Q.

(** The invariant of the component: the live intervals are exactly the one
    the ref holds; the ref holds one exactly while the timer is running with
    time left; neither [timeLeft] nor a stored [duration] is NaN; and the two
    flags are never both set. *)
Record Inv (s : state) : Prop := mkInv {
  inv_live : intervals s = held (timerRef s);
  inv_ref :
    timerRef s <> None <->
    isActive s = true /\ isPaused s = false
    /\ Num.gtb (timeLeft s) zero = true;
  inv_time : isNaN (timeLeft s) = false;
  inv_duration : duration s <> DNum NaN;
  inv_flags : isActive s = true -> isPaused s = false
}.

(** The states the component passes through while it processes an event:
    after the handler, and, when the effect is re-run, after its cleanup and
    after its body. *)
Definition points (e : event) (s : state) : list state :=
  let s1 := handle e s in
  if deps_changed s s1 then [s1; cleanup s1; effect (cleanup s1)] else [s1].

(** What an accepted SetDuration(n) does: TimeLeft is [n], the component is
    Idle, the interval the ref held is released and the input is cleared. *)
Definition set_to (n : number) (s s' : state) : Prop :=
  timeLeft s' = n /\ isActive s' = false /\ isPaused s' = false
  /\ runState s' = Idle /\ timerRef s' = None
  /\ intervals s' = intervals s ∖ held (timerRef s)
  /\ duration s' = DStr "".

(** SetDuration read as accepting exactly the finite numbers above 0. *)
Definition SetDuration_finite_only (s : state) : Prop :=
  (forall n : number,
      duration s = DNum n -> finite_positive n ->
      set_to n s (step ClickSet s))
  /\ ((~ exists n : number, duration s = DNum n /\ finite_positive n) ->
      step ClickSet s = s).

(** A tick read as decrementing with a floor at 0. *)
Definition tick_floored (t : timer) (s : state) : Prop :=
  let s' := step (Tick t) s in
  timeLeft s' = floor0 (Num.sub (timeLeft s) one)
  /\ (timeLeft s' = zero -> timerRef s' = None /\ t ∉ intervals s')
  /\ isActive s' = isActive s /\ isPaused s' = isPaused s.

(** The ref holds an interval exactly in the Running state. *)
Definition ticker_iff_running (s : state) : Prop :=
  timerRef s <> None <-> runState s = Running.

(** TimeLeft is not below 0. *)
Definition TimeLeft_nonnegative (s : state) : Prop :=
  Num.leb zero (timeLeft s) = true.

(** A whole number of seconds, 0 or more. *)
Definition nonneg_whole (x : number) : bool :=
  match x with
  | Fin (Qmake n 1) => (0 <=? n)%Z
  | _ => false
  end.

(** At most one interval is live. *)
Definition at_most_one_live (s : state) : Prop :=
  (size (intervals s) <= 1)%nat.

(** The ref accounts for every live interval. *)
Definition accounted (s : state) : Prop := intervals s = held (timerRef s).

(** Reading a rendered time back. *)

Definition is_digit (c : ascii) : bool :=
  let n := N_of_ascii c in (48 <=? n)%N && (n <=? 57)%N.

Definition all_digits (l : list ascii) : bool := forallb is_digit l.

(** The number a string of decimal digits denotes. *)
Definition decimal_value (l : list ascii) : N :=
  fold_left (fun acc c => acc * 10 + (N_of_ascii c - 48))%N l 0%N.

(** [ds] is the plain decimal notation of [n]: its digits, none of them a
    leading zero, one digit below 10 and two below 100. *)
Definition digits_of (ds : list ascii) (n : N) : Prop :=
  all_digits ds = true
  /\ decimal_value ds = n
  /\ (0 < n -> hd "0"%char ds <> "0"%char)%N
  /\ (n < 10 -> List.length ds = 1%nat)%N
  /\ (10 <= n -> (2 <= List.length ds)%nat)%N
  /\ (n < 100 -> (List.length ds <= 2)%nat)%N.

(** [l] is the decimal notation of [n], zero-padded to two digits: digits
    only, at least two of them, and no leading zero beyond the second-last
    place. *)
Definition zero_padded (l : list ascii) (n : Z) : Prop :=
  all_digits l = true
  /\ Z.of_N (decimal_value l) = n
  /\ (2 <= List.length l)%nat
  /\ ((2 < List.length l)%nat -> hd "0"%char l <> "0"%char).

(** [out] is [t] seconds rendered as MM:SS. *)
Definition renders_MMSS (out : string) (t : Z) : Prop :=
  exists mm ss : list ascii,
    chars out = mm ++ ":"%char :: ss
    /\ zero_padded mm (t / 60)
    /\ zero_padded ss (t mod 60)
    /\ List.length ss = 2%nat.

(** The largest integer below which every integer is a number of the host. *)
Definition MAX_SAFE_INTEGER : Z := 2 ^ 53 - 1.

End Props.

Export Props.

(** ** What the component renders *)

Module View.

(** The parts of the rendered output that depend on the state: the value of
    the duration field, the time display and the label of the start button.
    The four buttons are wired to the handlers as the events above say. *)
Record view : Type := mkView {
  inputValue : duration_value;
  display : string;
  startLabel : string
}.

Definition render (s : state) : view :=
  mkView (duration s)
         (formatTime (timeLeft s))
         (if isPaused s then "Resume" else "Start").

End View.

Export View.

(** ** Further notions used to state properties *)

Module MoreProps.

(** The ref's handle was handed out before the next one. *)
Definition fresh (s : state) : Prop :=
  match timerRef s with
  | Some t => (t < nextTimer s)%positive
  | None => True
  end.

(** The timer is running on the interval [t]. *)
Definition running_on (t : timer) (s : state) : Prop :=
  timerRef s = Some t /\ intervals s = {[t]}
  /\ isActive s = true /\ isPaused s = false.

(** A click on one of the four buttons. *)
Definition is_click (e : event) : bool :=
  match e with
  | ClickSet | ClickStart | ClickPause | ClickReset => true
  | _ => false
  end.

(** Text of ASCII characters only. *)
Definition ascii_text (v : string) : bool :=
  forallb (fun c => (N_of_ascii c <? 128)%N) (chars v).

(** An ASCII input text that is not a number at all, or that denotes a whole
    number of seconds from 0 to [b]. *)
Definition whole_input_upto (b : Z) (v : string) : bool :=
  ascii_text v
  && (isNaN (ToNumber v)
      || (nonneg_whole (ToNumber v) && Num.leb (ToNumber v) (of_Z b))).

Definition whole_event_upto (b : Z) (e : event) : bool :=
  match e with
  | Change v => whole_input_upto b v
  | _ => true
  end.

(** A duration on which the countdown's arithmetic is exact in doubles: a
    positive multiple [m / 2^j] of [2^-j] with [j <= 52] and [m <= 2^53]. *)
Definition exact_duration (q : Q) : Prop :=
  exists (m : Z) (j : nat),
    (j <= 52)%nat /\ (0 < m <= 2 ^ 53)%Z
    /\ (q == inject_Z m / inject_Z (2 ^ Z.of_nat j))%Q.

(** What whole inputs up to [b] maintain: TimeLeft and a stored duration are
    whole numbers from 0 to [b]. *)
Definition WholeUpto (b : Z) (s : state) : Prop :=
  (exists n : Z, (0 <= n <= b)%Z /\ timeLeft s = of_Z n)
  /\ match duration s with
     | DNum x => exists n : Z, (0 <= n <= b)%Z /\ x = of_Z n
     | DStr _ => True
     end.

(** The text before the first colon, and the text after it. *)
Fixpoint split_colon (l : list ascii) : option (list ascii * list ascii) :=
  match l with
  | [] => None
  | c :: l' =>
      if Ascii.eqb c ":"%char then Some ([], l')
      else match split_colon l' with
           | Some (a, b) => Some (c :: a, b)
           | None => None
           end
  end.

(** Reading a rendered time back as seconds. *)
Definition read_MMSS (out : string) : option Z :=
  match split_colon (chars out) with
  | Some (mm, ss) =>
      if all_digits mm && all_digits ss
      then Some (60 * Z.of_N (decimal_value mm) + Z.of_N (decimal_value ss))
      else None
  | None => None
  end.

End MoreProps.

Export MoreProps.

(** * Sanity checks of the embedding *)

Example sub_half : Num.sub (Fin (1 # 2)) one = Fin (-1 # 2).
Proof. reflexivity. Qed.

Example rem_neg : Num.rem (of_Z (-5)) (of_Z 60) = of_Z (-5).
Proof. reflexivity. Qed.

Example floor_div_neg : Math_floor (Num.div (of_Z (-5)) (of_Z 60)) = of_Z (-1).
Proof. reflexivity. Qed.

Example ToString_65 : ToString (of_Z 65) = "65"%string.
Proof. reflexivity. Qed.

Example ToString_neg : ToString (of_Z (-7)) = "-7"%string.
Proof. reflexivity. Qed.

Example ToString_half : ToString (Fin (1 # 2)) = "0.5"%string.
Proof. vm_compute. reflexivity. Qed.

Example ToString_frac : ToString (Fin (5 # 4)) = "1.25"%string.
Proof. vm_compute. reflexivity. Qed.

Example ToString_small : ToString (Fin (1 # 10000000)) = "1e-7"%string.
Proof. vm_compute. reflexivity. Qed.

Example ToString_small6 : ToString (Fin (1 # 1000000)) = "0.000001"%string.
Proof. vm_compute. reflexivity. Qed.

Example ToString_1e21 : ToString (of_Z (10 ^ 21)) = "1e+21"%string.
Proof. vm_compute. reflexivity. Qed.

Example ToString_12e21 : ToString (of_Z (12 * 10 ^ 21)) = "1.2e+22"%string.
Proof. vm_compute. reflexivity. Qed.

Example ToString_1e20 :
  ToString (of_Z (10 ^ 20)) = "100000000000000000000"%string.
Proof. vm_compute. reflexivity. Qed.

Example padStart_5 : padStart "5" 2 "0" = "05"%string.
Proof. reflexivity. Qed.

Example padStart_123 : padStart "123" 2 "0" = "123"%string.
Proof. reflexivity. Qed.

Example padStart_ab : padStart "x" 6 "ab" = "ababax"%string.
Proof. reflexivity. Qed.

Example ToNumber_empty : ToNumber "" = zero.
Proof. reflexivity. Qed.

Example ToNumber_blank : ToNumber "  " = zero.
Proof. reflexivity. Qed.

Example ToNumber_10 : ToNumber "10" = of_Z 10.
Proof. reflexivity. Qed.

Example ToNumber_neg : ToNumber "-3" = of_Z (-3).
Proof. reflexivity. Qed.

Example ToNumber_half : ToNumber "0.5" = Fin (1 # 2).
Proof. reflexivity. Qed.

Example ToNumber_dot5 : ToNumber " .50e1 " = of_Z 5.
Proof. reflexivity. Qed.

Example ToNumber_exp : ToNumber "125e-2" = Fin (5 # 4).
Proof. vm_compute. reflexivity. Qed.

Example ToNumber_hex : ToNumber "0x1F" = of_Z 31.
Proof. reflexivity. Qed.

Example ToNumber_abc : ToNumber "abc" = NaN.
Proof. reflexivity. Qed.

Example ToNumber_dot : ToNumber "." = NaN.
Proof. reflexivity. Qed.

Example ToNumber_trailing : ToNumber "12px" = NaN.
Proof. reflexivity. Qed.

Example ToNumber_signed_hex : ToNumber "-0x10" = NaN.
Proof. reflexivity. Qed.

Example ToNumber_inf : ToNumber "Infinity" = PosInf.
Proof. reflexivity. Qed.

Example ToNumber_neg_inf : ToNumber "-Infinity" = NegInf.
Proof. reflexivity. Qed.

Example ToNumber_big : ToNumber "6e22" = of_Z (6 * 10 ^ 22).
Proof. vm_compute. reflexivity. Qed.

Example ToNumber_overflow : ToNumber "1e400" = PosInf.
Proof. vm_compute. reflexivity. Qed.

Example formatTime_65 : formatTime (of_Z 65) = "01:05"%string.
Proof. vm_compute. reflexivity. Qed.

Example formatTime_0 : formatTime (of_Z 0) = "00:00"%string.
Proof. vm_compute. reflexivity. Qed.

Example formatTime_3600 : formatTime (of_Z 6005) = "100:05"%string.
Proof. vm_compute. reflexivity. Qed.

Example formatTime_neg_half : formatTime (Fin (-1 # 2)) = "-1:-0.5"%string.
Proof. vm_compute. reflexivity. Qed.

Example formatTime_6e22 : formatTime (of_Z (6 * 10 ^ 22)) = "1e+21:00"%string.
Proof. vm_compute. reflexivity. Qed.

Example run_countdown :
  let s := run [Change "2"; ClickSet; ClickStart; Tick 1%positive; Tick 1%positive] init in
  timeLeft s = zero /\ timerRef s = None /\ isActive s = true.
Proof. vm_compute. auto. Qed.

Example run_countdown_10 :
  let ticks := List.repeat (Tick 1%positive) 10 in
  let s := run ([Change "10"; ClickSet; ClickStart] ++ ticks) init in
  timeLeft s = zero /\ timerRef s = None /\ intervals s = ∅.
Proof. vm_compute. auto. Qed.

Example run_resume_fresh_interval :
  let s := run [Change "10"; ClickSet; ClickStart; ClickPause; ClickStart] init in
  timerRef s = Some 2%positive /\ intervals s = {[2%positive]}
  /\ timeLeft s = of_Z 10.
Proof. vm_compute. auto. Qed.

Example ToNumber_rounds_to_even :
  ToNumber "9007199254740995" = of_Z 9007199254740996
  /\ ToNumber "9007199254740993" = of_Z 9007199254740992.
Proof. vm_compute. auto. Qed.

Example ToNumber_tenth :
  ToNumber "0.1" = Fin (3602879701896397 # 36028797018963968).
Proof. vm_compute. reflexivity. Qed.

Example ToNumber_underflow : ToNumber "1e-400" = zero.
Proof. vm_compute. reflexivity. Qed.

Example ToNumber_smallest : ToNumber "5e-324" = Fin (Qpow2 (-1074)).
Proof. vm_compute. reflexivity. Qed.

Example ToNumber_largest :
  ToNumber "1.7976931348623157e308" = of_Z (2 ^ 1024 - 2 ^ 971)
  /\ ToNumber "1.7976931348623159e308" = PosInf.
Proof. vm_compute. auto. Qed.

Example ToNumber_no_break_space :
  ToNumber (String (ascii_of_nat 194) (String (ascii_of_nat 160) "0.5"))
  = Fin (1 # 2)
  /\ ToNumber (String (ascii_of_nat 160) "5") = of_Z 5.
Proof. vm_compute. auto. Qed.

Example ToNumber_byte_order_mark :
  ToNumber (String (ascii_of_nat 239) (String (ascii_of_nat 187)
              (String (ascii_of_nat 191) "7 "))) = of_Z 7.
Proof. vm_compute. reflexivity. Qed.

Example ToNumber_trailing_separator :
  ToNumber (String.append "12"
              (String (ascii_of_nat 226) (String (ascii_of_nat 128)
                 (String (ascii_of_nat 168) ""))))
  = of_Z 12.
Proof. vm_compute. reflexivity. Qed.

Example ToNumber_accented :
  ToNumber (String.append "5"
              (String (ascii_of_nat 195) (String (ascii_of_nat 160) "")))
  = NaN.
Proof. vm_compute. reflexivity. Qed.

(** * Properties *)

(** ** Arithmetic of the number model *)

Section NumFacts.

Local Open Scope Q_scope.

Lemma ltb_Fin (p q : Q) : Num.ltb (Fin p) (Fin q) = true <-> p < q.
Proof.
  unfold Num.ltb; cbn. rewrite Qlt_alt.
  destruct (p ?= q); split; intros H; congruence.
Qed.

Lemma leb_Fin (p q : Q) : Num.leb (Fin p) (Fin q) = true <-> p <= q.
Proof.
  unfold Num.leb; cbn. rewrite Qle_alt.
  destruct (p ?= q); split; intros H; congruence.
Qed.

Lemma ltb_Fin_false (p q : Q) : Num.ltb (Fin p) (Fin q) = false <-> q <= p.
Proof.
  rewrite <- not_true_iff_false, ltb_Fin. split.
  - apply Qnot_lt_le.
  - apply Qle_not_lt.
Qed.

Lemma leb_Fin_false (p q : Q) : Num.leb (Fin p) (Fin q) = false <-> q < p.
Proof.
  rewrite <- not_true_iff_false, leb_Fin. split.
  - apply Qnot_le_lt.
  - apply Qlt_not_le.
Qed.

Lemma Qred_inject_Z (z : Z) : Qred (inject_Z z) = inject_Z z.
Proof. apply Qred_identity. cbn. apply Z.gcd_1_r. Qed.

Lemma sub_of_Z (a b : Z) : Num.sub (of_Z a) (of_Z b) = of_Z (a - b).
Proof.
  unfold of_Z; cbn. f_equal.
  rewrite <- (Qred_inject_Z (a - b)). apply Qred_complete.
  unfold Qeq; cbn. lia.
Qed.

Lemma gtb_of_Z (a : Z) : Num.gtb (of_Z a) zero = true <-> (0 < a)%Z.
Proof.
  unfold Num.gtb, zero, of_Z. rewrite ltb_Fin, <- Zlt_Qlt. reflexivity.
Qed.

Lemma leb_of_Z (a b : Z) : Num.leb (of_Z a) (of_Z b) = true <-> (a <= b)%Z.
Proof. unfold of_Z. rewrite leb_Fin, <- Zle_Qle. reflexivity. Qed.

Lemma of_Z_inj (a b : Z) : of_Z a = of_Z b -> a = b.
Proof. unfold of_Z, inject_Z. congruence. Qed.

(** The tick's test and its result agree: the interval is kept exactly when
    the new value is still positive. *)
Lemma sub_one_after_leb (p : number) :
  Num.leb p one = true -> Num.gtb (Num.sub p one) zero = false.
Proof.
  destruct p as [| | |q]; try reflexivity; try discriminate.
  unfold one, zero, of_Z, Num.gtb. cbn [Num.sub].
  rewrite leb_Fin, ltb_Fin_false, Qred_correct. intros H.
  change (inject_Z 1) with 1 in *. change (inject_Z 0) with 0. lra.
Qed.

Lemma sub_one_after_gt (p : number) :
  Num.leb p one = false -> isNaN p = false ->
  Num.gtb (Num.sub p one) zero = true.
Proof.
  destruct p as [| | |q]; try reflexivity; try discriminate.
  unfold one, zero, of_Z, Num.gtb. cbn [Num.sub].
  rewrite leb_Fin_false, ltb_Fin, Qred_correct. intros H _.
  change (inject_Z 1) with 1 in *. change (inject_Z 0) with 0. lra.
Qed.

Lemma sub_one_not_NaN (p : number) :
  isNaN p = false -> isNaN (Num.sub p one) = false.
Proof. destruct p; auto. Qed.

Lemma sub_one_zero (p : number) :
  Num.sub p one = zero -> Num.leb p one = true.
Proof.
  destruct p as [| | |q]; try discriminate.
  unfold one, zero, of_Z. cbn [Num.sub]. intros H.
  apply leb_Fin. injection H as H.
  assert (E : q - inject_Z 1 == inject_Z 0)
    by (rewrite <- (Qred_correct (q - inject_Z 1)), H; reflexivity).
  change (inject_Z 1) with 1 in *. change (inject_Z 0) with 0 in E. lra.
Qed.

Lemma gtb_not_NaN (p : number) : Num.gtb p zero = true -> isNaN p = false.
Proof. destruct p; auto. Qed.

End NumFacts.

(** ** The invariant *)


Lemma deps_changed_refl (s : state) : deps_changed s s = false.
Proof. unfold deps_changed. now rewrite !eqb_reflx. Qed.

Lemma commit_same (s s' : state) :
  isActive s' = isActive s -> isPaused s' = isPaused s -> commit s s' = s'.
Proof.
  intros Ha Hp. unfold commit, deps_changed.
  now rewrite Ha, Hp, !eqb_reflx.
Qed.

Lemma Inv_init : Inv init.
Proof.
  split; cbn; easy.
Qed.

Lemma held_release (s : state) :
  intervals s = held (timerRef s) -> intervals (releaseTimer s) = ∅.
Proof.
  unfold releaseTimer. destruct (timerRef s) as [t|]; cbn; intros ->.
  - apply difference_diag_L.
  - reflexivity.
Qed.


Section Release.
Variable s : state.

Lemma releaseTimer_timerRef : timerRef (releaseTimer s) = None.
Proof. unfold releaseTimer. now destruct (timerRef s) eqn:E. Qed.

Lemma releaseTimer_intervals :
  intervals (releaseTimer s) = intervals s ∖ held (timerRef s).
Proof.
  unfold releaseTimer. destruct (timerRef s); cbn.
  - reflexivity.
  - symmetry. apply difference_empty_L.
Qed.

Lemma releaseTimer_duration : duration (releaseTimer s) = duration s.
Proof. unfold releaseTimer. now destruct (timerRef s). Qed.

Lemma releaseTimer_timeLeft : timeLeft (releaseTimer s) = timeLeft s.
Proof. unfold releaseTimer. now destruct (timerRef s). Qed.

Lemma releaseTimer_isActive : isActive (releaseTimer s) = isActive s.
Proof. unfold releaseTimer. now destruct (timerRef s). Qed.

Lemma releaseTimer_isPaused : isPaused (releaseTimer s) = isPaused s.
Proof. unfold releaseTimer. now destruct (timerRef s). Qed.

Lemma releaseTimer_nextTimer : nextTimer (releaseTimer s) = nextTimer s.
Proof. unfold releaseTimer. now destruct (timerRef s). Qed.

Lemma releaseTimer_idle : timerRef s = None -> releaseTimer s = s.
Proof. unfold releaseTimer. now intros ->. Qed.

End Release.

Lemma commit_inactive (prev s : state) :
  isActive s = false -> timerRef s = None -> commit prev s = s.
Proof.
  intros Ha Hr. unfold commit, cleanup, effect.
  rewrite (releaseTimer_idle _ Hr), Ha. now destruct deps_changed.
Qed.

Ltac release_fields :=
  rewrite ?releaseTimer_timerRef, ?releaseTimer_duration,
    ?releaseTimer_timeLeft, ?releaseTimer_isActive, ?releaseTimer_isPaused,
    ?releaseTimer_nextTimer.

Lemma Inv_inactive (s : state) :
  isActive s = false -> timerRef s = None -> intervals s = ∅ ->
  isNaN (timeLeft s) = false -> duration s <> DNum NaN -> Inv s.
Proof.
  intros Ha Hr Hi Ht Hd. split; try assumption.
  - now rewrite Hr.
  - rewrite Hr, Ha. split; [congruence | intros (? & _); discriminate].
  - rewrite Ha. discriminate.
Qed.

Section TickFields.
Variable s : state.

Lemma tick_timeLeft : timeLeft (tick s) = Num.sub (timeLeft s) one.
Proof. reflexivity. Qed.

Lemma tick_isActive : isActive (tick s) = isActive s.
Proof. unfold tick. destruct Num.leb; cbn; now release_fields. Qed.

Lemma tick_isPaused : isPaused (tick s) = isPaused s.
Proof. unfold tick. destruct Num.leb; cbn; now release_fields. Qed.

Lemma tick_duration : duration (tick s) = duration s.
Proof. unfold tick. destruct Num.leb; cbn; now release_fields. Qed.

Lemma tick_timerRef :
  timerRef (tick s) =
  if Num.leb (timeLeft s) one then None else timerRef s.
Proof. unfold tick. destruct Num.leb; cbn; now release_fields. Qed.

Lemma tick_intervals :
  intervals (tick s) =
  if Num.leb (timeLeft s) one
  then intervals s ∖ held (timerRef s) else intervals s.
Proof.
  unfold tick. destruct Num.leb; cbn; [apply releaseTimer_intervals | easy].
Qed.

End TickFields.

Lemma Inv_step (e : event) (s : state) : Inv s -> Inv (step e s).
Proof.
  intros HI. pose proof HI as [H1 H2 H3 H4 H5].
  destruct e; unfold step, handle.
  - (* Change *)
    unfold handleDurationChange.
    destruct (isNaN (ToNumber value)) eqn:E; cbn.
    all: rewrite commit_same by reflexivity.
    all: split; cbn; try assumption.
    + discriminate.
    + intros [= N]. rewrite N in E. discriminate.
  - (* Set *)
    unfold handleSetDuration.
    destruct (duration s) as [n|] eqn:D; [destruct (Num.gtb n zero) eqn:G|].
    2,3: rewrite commit_same by reflexivity; exact HI.
    rewrite commit_inactive by (release_fields; reflexivity).
    apply Inv_inactive; release_fields; cbn; try easy.
    + apply held_release. exact H1.
    + now apply gtb_not_NaN.
  - (* Start *)
    unfold handleStart. destruct (Num.gtb (timeLeft s) zero) eqn:G.
    2: rewrite commit_same by reflexivity; exact HI.
    destruct s as [d tl a p r iv nx]; cbn in *.
    destruct a.
    + rewrite (H5 eq_refl) in *. exact HI.
    + assert (r = None) as ->.
      { destruct r; [|reflexivity]. destruct H2 as [H2 _].
        destruct H2 as (? & _); [congruence | discriminate]. }
      cbn in H1. subst iv.
      destruct p; unfold commit; cbn.
      all: split; cbn; try easy; apply union_empty_r_L.
  - (* Pause *)
    unfold handlePause. destruct (isActive s) eqn:A.
    2: rewrite commit_same by reflexivity; exact HI.
    rewrite commit_inactive by (release_fields; reflexivity).
    apply Inv_inactive; release_fields; cbn; try easy.
    apply held_release. exact H1.
  - (* Reset *)
    unfold handleReset.
    rewrite commit_inactive by (release_fields; reflexivity).
    apply Inv_inactive; release_fields; cbn; try easy.
    + apply held_release. exact H1.
    + destruct (duration s) as [[]|]; try reflexivity. congruence.
  - (* Tick *)
    destruct (decide (t ∈ intervals s)) as [Hin|].
    2: rewrite commit_same by reflexivity; exact HI.
    rewrite commit_same by (apply tick_isActive || apply tick_isPaused).
    rewrite H1 in Hin.
    destruct (timerRef s) as [t'|] eqn:R;
      [|now apply not_elem_of_empty in Hin].
    destruct H2 as [H2 _]. destruct H2 as (A & P & G); [congruence|].
    split.
    + rewrite tick_intervals, tick_timerRef, R, H1.
      destruct Num.leb; cbn; [apply difference_diag_L | reflexivity].
    + rewrite tick_timerRef, tick_isActive, tick_isPaused, tick_timeLeft, R.
      destruct (Num.leb (timeLeft s) one) eqn:L.
      * rewrite (sub_one_after_leb _ L).
        split; [congruence | intros (_ & _ & ?); discriminate].
      * rewrite (sub_one_after_gt _ L H3). split; [auto | congruence].
    + rewrite tick_timeLeft. now apply sub_one_not_NaN.
    + now rewrite tick_duration.
    + now rewrite tick_isActive, tick_isPaused.
Qed.

Lemma Inv_run (es : list event) (s : state) : Inv s -> Inv (run es s).
Proof.
  revert s. induction es as [|e es IH]; intros s H; cbn; [exact H|].
  apply IH, Inv_step, H.
Qed.

Lemma Inv_reachable (es : list event) : Inv (run es init).
Proof. apply Inv_run, Inv_init. Qed.

(** ** Reset *)

Lemma step_inactive (e : event) (s : state) :
  isActive (handle e s) = false -> timerRef (handle e s) = None ->
  step e s = handle e s.
Proof. intros Ha Hr. unfold step. now apply commit_inactive. Qed.

Lemma step_Reset (s : state) : step ClickReset s = handleReset s.
Proof.
  apply step_inactive; cbn; unfold handleReset; now release_fields.
Qed.

(** C1.  Reset is always accepted and leaves the component Idle with no
    interval held or live.  The time it restores is the pending input, not
    the duration that was set: [handleSetDuration] clears the input, so after
    entering 10, Set, Start, Pause and Reset, TimeLeft is 0 although the
    duration set was 10. *)
Theorem handleReset_forgets_set_duration :
  (forall es : list event,
      let s := step ClickReset (run es init) in
      runState s = Idle /\ isActive s = false /\ isPaused s = false
      /\ timerRef s = None /\ intervals s = ∅)
  /\ timeLeft (run [Change "10"; ClickSet] init) = of_Z 10
  /\ timeLeft (run [Change "10"; ClickSet; ClickStart; ClickPause] init)
     = of_Z 10
  /\ timeLeft
       (run [Change "10"; ClickSet; ClickStart; ClickPause; ClickReset] init)
     = zero.
Proof.
  split; [|now vm_compute].
  intros es s. subst s. rewrite step_Reset.
  pose proof (Inv_reachable es) as [H1 _ _ _ _].
  unfold handleReset, runState. release_fields. cbn.
  repeat split. now apply held_release.
Qed.

(** C9.  Reset leaves the pending duration input as it is, and the value it
    copies into TimeLeft is that pending input (0 when the input is not a
    number): after setting 10 and then typing 7, Reset restores 7. *)
Theorem handleReset_copies_pending_input :
  (forall s : state,
      let s' := step ClickReset s in
      duration s' = duration s
      /\ timeLeft s' = match duration s with DNum d => d | DStr _ => zero end)
  /\ timeLeft (run [Change "10"; ClickSet; Change "7"; ClickReset] init)
     = of_Z 7.
Proof.
  split; [|now vm_compute].
  intros s s'. subst s'. rewrite step_Reset. unfold handleReset.
  now release_fields.
Qed.

(** C10.  Entering the empty string stores the number 0 as the pending
    duration; from there Set changes nothing and Reset sets TimeLeft to 0. *)
Theorem empty_input_stores_zero :
  ToNumber "" = zero
  /\ forall s : state,
      let s1 := step (Change "") s in
      duration s1 = DNum zero
      /\ step ClickSet s1 = s1
      /\ timeLeft (step ClickReset s1) = zero.
Proof.
  split; [reflexivity|]. intros s s1.
  assert (E : s1 = setDuration (DNum zero) s).
  { subst s1. unfold step. now rewrite commit_same. }
  rewrite E. repeat split.
  - unfold step.
    change (handle ClickSet (setDuration (DNum zero) s))
      with (setDuration (DNum zero) s).
    apply commit_same; reflexivity.
  - rewrite step_Reset. unfold handleReset. now release_fields.
Qed.

(** ** Pause *)

Lemma isActive_Running (s : state) :
  Inv s -> (isActive s = true <-> runState s = Running).
Proof.
  intros [_ _ _ _ H5]. unfold runState. split.
  - intros A. now rewrite A, (H5 A).
  - destruct (isActive s); [easy|]. cbn. now destruct (isPaused s).
Qed.

(** C7.  Pause acts only when [isActive] holds, which in a reachable state is
    the Running state: it then moves to Paused, releases the interval the ref
    holds (none is live afterwards) and keeps TimeLeft and the pending input;
    when [isActive] does not hold the state is unchanged. *)
Theorem handlePause_only_when_active :
  (forall s : state,
      let s' := step ClickPause s in
      (isActive s = true ->
       isPaused s' = true /\ isActive s' = false /\ runState s' = Paused
       /\ timerRef s' = None
       /\ intervals s' = intervals s ∖ held (timerRef s)
       /\ timeLeft s' = timeLeft s /\ duration s' = duration s)
      /\ (isActive s = false -> s' = s))
  /\ (forall es : list event,
         let s := run es init in
         (isActive s = true <-> runState s = Running)
         /\ (isActive s = true -> intervals (step ClickPause s) = ∅)).
Proof.
  split.
  - intros s s'. subst s'. split; intros A.
    + rewrite step_inactive; cbn; unfold handlePause; rewrite A;
        release_fields; try reflexivity.
      unfold runState. release_fields. cbn.
      repeat split. now rewrite releaseTimer_intervals.
    + unfold step. cbn. unfold handlePause. rewrite A.
      apply commit_same; reflexivity.
  - intros es s. pose proof (Inv_reachable es) as HI. fold s in HI.
    split; [now apply isActive_Running|]. intros A.
    rewrite step_inactive; cbn; unfold handlePause; rewrite A;
      release_fields; try reflexivity.
    apply held_release. cbn. apply HI.
Qed.

Lemma handlePause_witness :
  let s := run [Change "10"; ClickSet; ClickStart; Tick 1%positive] init in
  let s' := step ClickPause s in
  isActive s = true
  /\ (isPaused s' = true /\ isActive s' = false /\ runState s' = Paused
      /\ timerRef s' = None
      /\ intervals s' = intervals s ∖ held (timerRef s)
      /\ timeLeft s' = timeLeft s /\ duration s' = duration s).
Proof.
  intros s s'.
  assert (A : isActive s = true) by (vm_compute; reflexivity).
  split; [exact A|].
  exact (proj1 (proj1 handlePause_only_when_active s) A).
Defined.

(** ** SetDuration *)

Lemma gtb_positive (n : number) :
  Num.gtb n zero = true <-> positive_number n.
Proof.
  unfold positive_number. destruct n as [| | |q].
  - split; [discriminate | intros [H|(q & H & _)]; discriminate].
  - split; [now left | reflexivity].
  - split; [discriminate | intros [H|(q & H & _)]; discriminate].
  - unfold Num.gtb, zero, of_Z. rewrite ltb_Fin.
    change (inject_Z 0) with 0%Q. split.
    + intros H. right. now exists q.
    + intros [H|(q' & [= ->] & H)]; [discriminate | exact H].
Qed.

Lemma step_Set_accept (s : state) (n : number) :
  duration s = DNum n -> Num.gtb n zero = true ->
  set_to n s (step ClickSet s).
Proof.
  intros D G.
  rewrite step_inactive; cbn; unfold handleSetDuration; rewrite D, G;
    release_fields; try reflexivity.
  unfold set_to, runState. release_fields. cbn.
  repeat split. now rewrite releaseTimer_intervals.
Qed.

Lemma step_Set_reject (s : state) :
  (forall n : number, duration s = DNum n -> Num.gtb n zero = false) ->
  step ClickSet s = s.
Proof.
  intros H. unfold step. cbn. unfold handleSetDuration.
  destruct (duration s) as [n|]; [rewrite (H n eq_refl)|];
    apply commit_same; reflexivity.
Qed.

(** C5, as the code has it.  Set takes effect exactly when the stored
    duration is a number greater than 0, +Infinity included: TimeLeft becomes
    that number, the component is Idle, the interval held is released and the
    input is cleared.  For every other stored value (the empty string, 0, a
    negative number, -Infinity) the state is unchanged. *)
Theorem handleSetDuration_positive_only (s : state) :
  let s' := step ClickSet s in
  (exists n : number,
      duration s = DNum n /\ positive_number n /\ set_to n s s')
  \/ ((~ exists n : number, duration s = DNum n /\ positive_number n)
      /\ s' = s).
Proof.
  intros s'. subst s'.
  destruct (duration s) as [n|v] eqn:D.
  - destruct (Num.gtb n zero) eqn:G.
    + left. exists n. split; [reflexivity|]. split; [now apply gtb_positive|].
      now apply step_Set_accept.
    + right. split.
      * intros (m & [= <-] & P). apply gtb_positive in P. congruence.
      * apply step_Set_reject. intros m. rewrite D. now intros [= <-].
  - right. split.
    + intros (m & E & _). discriminate.
    + apply step_Set_reject. intros m. rewrite D. discriminate.
Qed.

(** C5 fails as stated: with Infinity stored as the duration, which is not a
    finite number, Set is not a no-op: it sets TimeLeft to Infinity. *)
Lemma handleSetDuration_accepts_Infinity :
  duration (step (Change "Infinity") init) = DNum PosInf
  /\ timeLeft (run [Change "Infinity"; ClickSet] init) = PosInf
  /\ ~ SetDuration_finite_only (step (Change "Infinity") init).
Proof.
  split; [reflexivity|]. split; [reflexivity|].
  intros [_ H].
  assert (E : step ClickSet (step (Change "Infinity") init)
              = step (Change "Infinity") init).
  { apply H. intros (n & [= <-] & q & Q & _). discriminate. }
  apply (f_equal timeLeft) in E. discriminate.
Qed.

(** ** Tick *)

Lemma step_Tick (s : state) (t : timer) :
  t ∈ intervals s -> step (Tick t) s = tick s.
Proof.
  intros Hin. unfold step. cbn.
  destruct (decide (t ∈ intervals s)); [|contradiction].
  apply commit_same; [apply tick_isActive | apply tick_isPaused].
Qed.

(** C4 (code defect).  The tick does not floor at 0: with 0.5 set and the
    timer started, the interval fires at TimeLeft 0.5 and the tick leaves
    -0.5, not 0, although the code means to "stop the countdown at 0". *)
Lemma tick_goes_below_zero :
  let s := run [Change "0.5"; ClickSet; ClickStart] init in
  (timerRef s = Some 1%positive /\ 1%positive ∈ intervals s)
  /\ timeLeft s = Fin (1 # 2)
  /\ timeLeft (step (Tick 1%positive) s) = Fin (-1 # 2)
  /\ ~ tick_floored 1%positive s.
Proof.
  intros s.
  split; [split; [reflexivity|]|].
  { refine (bool_decide_unpack _ _). vm_compute. exact Logic.I. }
  split; [reflexivity|]. split; [reflexivity|].
  intros (F & _). vm_compute in F. discriminate.
Qed.

(** ** The ref and the run state *)

Lemma runState_Running (s : state) :
  runState s = Running <-> isActive s = true /\ isPaused s = false.
Proof.
  unfold runState. destruct (isActive s), (isPaused s); cbn;
    split; try discriminate; try tauto; intros (? & ?); discriminate.
Qed.

(** C2, as the code has it.  In every reachable state the ref holds an
    interval exactly when the component is Running and TimeLeft is above 0:
    a held interval implies Running, and Running implies a held interval
    until the countdown runs out, after which the component stays Running
    with the ref cleared. *)
Theorem ticker_iff_running_with_time_left (es : list event) :
  let s := run es init in
  timerRef s <> None <->
  runState s = Running /\ Num.gtb (timeLeft s) zero = true.
Proof.
  intros s. pose proof (Inv_reachable es) as [_ H _ _ _]. fold s in H.
  rewrite runState_Running. tauto.
Qed.

(** C2 fails as stated: after 1 is set, the timer started and the interval
    fired once, the component is Running and the ref is null. *)
Lemma running_without_ticker :
  let s := run [Change "1"; ClickSet; ClickStart; Tick 1%positive] init in
  runState s = Running /\ timerRef s = None /\ timeLeft s = zero
  /\ ~ ticker_iff_running s.
Proof.
  intros s. split; [reflexivity|]. split; [reflexivity|].
  split; [reflexivity|].
  intros [_ H]. apply H; reflexivity.
Qed.

(** ** TimeLeft and zero *)

Lemma commit_timeLeft (prev s : state) :
  timeLeft (commit prev s) = timeLeft s.
Proof.
  unfold commit, cleanup, effect. destruct deps_changed; [|reflexivity].
  release_fields. destruct (_ && _); cbn; now release_fields.
Qed.

Lemma commit_duration (prev s : state) :
  duration (commit prev s) = duration s.
Proof.
  unfold commit, cleanup, effect. destruct deps_changed; [|reflexivity].
  release_fields. destruct (_ && _); cbn; now release_fields.
Qed.

Lemma nonneg_whole_of_Z (x : number) :
  nonneg_whole x = true -> exists n : Z, (0 <= n)%Z /\ x = of_Z n.
Proof.
  destruct x as [| | |[n [d|d|]]]; try discriminate. cbn. intros H.
  exists n. split; [lia | reflexivity].
Qed.

(** C3 (code defect).  TimeLeft becomes negative: a negative number typed
    into the field is copied into TimeLeft by Reset, and a fractional
    duration is ticked below 0. *)
Lemma TimeLeft_negative_reachable :
  timeLeft (run [Change "-3"; ClickReset] init) = of_Z (-3)
  /\ ~ TimeLeft_nonnegative (run [Change "-3"; ClickReset] init)
  /\ ~ TimeLeft_nonnegative
         (run [Change "0.5"; ClickSet; ClickStart; Tick 1%positive] init).
Proof.
  split; [reflexivity|]. split; intros H; vm_compute in H; discriminate.
Qed.

(** ** One interval at a time *)

Lemma accounted_at_most_one (s : state) : accounted s -> at_most_one_live s.
Proof.
  unfold accounted, at_most_one_live. intros ->.
  destruct (timerRef s); cbn.
  - rewrite size_singleton. lia.
  - rewrite size_empty. lia.
Qed.

Lemma accounted_release (s : state) : accounted s -> accounted (releaseTimer s).
Proof.
  intros H. unfold accounted. rewrite releaseTimer_timerRef.
  now apply held_release.
Qed.

Lemma accounted_handle (e : event) (s : state) :
  accounted s -> accounted (handle e s).
Proof.
  intros H. destruct e; cbn [handle].
  - unfold handleDurationChange. now destruct (negb _).
  - unfold handleSetDuration.
    destruct (duration s) as [n|]; [destruct (Num.gtb n zero)|]; try exact H.
    now apply accounted_release.
  - unfold handleStart. now destruct (Num.gtb _ _).
  - unfold handlePause. destruct (isActive s); [|exact H].
    now apply accounted_release.
  - unfold handleReset. now apply accounted_release.
  - destruct (decide _); [|exact H].
    unfold tick. destruct (Num.leb _ _); [|exact H].
    now apply (accounted_release s).
Qed.

Lemma cleanup_no_interval (s : state) :
  accounted s -> intervals (cleanup s) = ∅ /\ timerRef (cleanup s) = None.
Proof.
  intros H. unfold cleanup. split.
  - now apply held_release.
  - apply releaseTimer_timerRef.
Qed.

Lemma accounted_effect (s : state) :
  intervals s = ∅ -> timerRef s = None -> accounted (effect s).
Proof.
  intros H R. unfold accounted, effect.
  destruct (_ && _); cbn.
  - rewrite H. apply union_empty_r_L.
  - now rewrite H, R.
Qed.

Lemma accounted_points (e : event) (s : state) :
  accounted s -> Forall accounted (points e s).
Proof.
  intros H. unfold points.
  pose proof (accounted_handle e s H) as H1.
  destruct (cleanup_no_interval _ H1) as [C R].
  destruct deps_changed; repeat constructor; try assumption.
  - unfold accounted. now rewrite C, R.
  - now apply accounted_effect.
Qed.

Lemma step_last_point (e : event) (s : state) :
  List.last (points e s) s = step e s.
Proof.
  unfold points, step, commit. now destruct deps_changed.
Qed.

(** C6.  Through every execution at most one interval is live: in every
    reachable state and in every state the component passes through while it
    processes an event (after the handler, after the effect's cleanup, after
    the effect's body).  The effect's body, the only place that starts an
    interval, runs after the cleanup, when no interval is live. *)
Theorem at_most_one_interval (es : list event) (e : event) :
  let s := run es init in
  at_most_one_live s
  /\ Forall at_most_one_live (points e s)
  /\ List.last (points e s) s = step e s
  /\ intervals (cleanup (handle e s)) = ∅.
Proof.
  intros s.
  assert (A : accounted s) by apply (Inv_reachable es).
  split; [now apply accounted_at_most_one|].
  split.
  - eapply Forall_impl; [apply accounted_points, A|].
    intros p. apply accounted_at_most_one.
  - split; [apply step_last_point|].
    now apply cleanup_no_interval, accounted_handle.
Qed.

(** X7.  Teardown releases the interval: nothing is live after the component is
    unmounted from a reachable state. *)
Lemma unmount_releases (es : list event) :
  let s := unmount (run es init) in
  intervals s = ∅ /\ timerRef s = None.
Proof.
  intros s. apply cleanup_no_interval. apply (Inv_reachable es).
Qed.

(** ** Formatting *)

Section Digits.

Local Open Scope N_scope.

Lemma N_of_digit_char (d : N) : d < 10 -> N_of_ascii (digit_char d) = 48 + d.
Proof.
  intros H. unfold digit_char. apply N_ascii_embedding. lia.
Qed.

Lemma is_digit_digit_char (d : N) : d < 10 -> is_digit (digit_char d) = true.
Proof.
  intros H. unfold is_digit. rewrite N_of_digit_char by exact H.
  apply andb_true_iff. split; apply N.leb_le; lia.
Qed.

Lemma digit_char_nonzero (d : N) :
  0 < d -> d < 10 -> digit_char d <> "0"%char.
Proof.
  intros H0 H E. apply (f_equal N_of_ascii) in E.
  rewrite N_of_digit_char in E by exact H. cbn in E. lia.
Qed.

Lemma decimal_value_snoc (l : list ascii) (c : ascii) :
  decimal_value (l ++ [c]) = decimal_value l * 10 + (N_of_ascii c - 48).
Proof. unfold decimal_value. now rewrite fold_left_app. Qed.

Lemma all_digits_snoc (l : list ascii) (c : ascii) :
  all_digits (l ++ [c]) = all_digits l && is_digit c.
Proof. unfold all_digits. rewrite forallb_app. cbn. now rewrite andb_true_r. Qed.

Lemma single_digit (n : N) (acc : list ascii) :
  n < 10 ->
  exists ds : list ascii,
    digit_char (n mod 10) :: acc = ds ++ acc
    /\ digits_of ds n.
Proof.
  intros Hn. exists [digit_char n]. rewrite N.mod_small by exact Hn.
  split; [reflexivity|]. split.
  { cbn. now rewrite is_digit_digit_char. }
  split.
  { unfold decimal_value. cbn. rewrite N_of_digit_char by exact Hn. lia. }
  split; [intros H0; cbn; now apply digit_char_nonzero|].
  split; [reflexivity|]. split; [lia | cbn; lia].
Qed.

Lemma digits_aux_S (f : nat) (n : N) (acc : list ascii) :
  digits_aux (S f) n acc =
  if n / 10 =? 0 then digit_char (n mod 10) :: acc
  else digits_aux f (n / 10) (digit_char (n mod 10) :: acc).
Proof. reflexivity. Qed.

(** What the digit loop produces, given fuel for every digit. *)
Lemma digits_aux_spec (f : nat) :
  forall (n : N) (acc : list ascii),
    n < 10 ^ N.of_nat (S f) ->
    exists ds : list ascii,
      digits_aux (S f) n acc = ds ++ acc
      /\ digits_of ds n.
Proof.
  induction f as [|f IH]; intros n acc Hn.
  - rewrite digits_aux_S. change (10 ^ N.of_nat 1) with 10 in Hn.
    destruct (n / 10 =? 0); now apply single_digit.
  - rewrite digits_aux_S.
    destruct (n / 10 =? 0) eqn:E.
    + apply single_digit. apply N.eqb_eq in E.
      destruct (N.lt_ge_cases n 10) as [L|G]; [exact L|].
      assert (1 <= n / 10) by (apply N.div_le_lower_bound; lia). lia.
    + apply N.eqb_neq in E.
      assert (G : 10 <= n).
      { destruct (N.lt_ge_cases n 10) as [L|G]; [|exact G].
        rewrite N.div_small in E by exact L. congruence. }
      assert (Hq : n / 10 < 10 ^ N.of_nat (S f)).
      { apply N.Div0.div_lt_upper_bound.
        rewrite <- N.pow_succ_r', <- Nat2N.inj_succ. exact Hn. }
      destruct (IH (n / 10) (digit_char (n mod 10) :: acc) Hq)
        as (ds & Eq & D & V & Hd & L1 & L2 & _).
      assert (Hm : n mod 10 < 10) by (apply N.mod_lt; lia).
      assert (Hlen : (1 <= List.length ds)%nat).
      { destruct (N.lt_ge_cases (n / 10) 10) as [L|L];
          [rewrite (L1 L) | specialize (L2 L)]; lia. }
      exists (ds ++ [digit_char (n mod 10)]).
      split; [rewrite Eq, <- app_assoc; reflexivity|].
      split; [rewrite all_digits_snoc, D, is_digit_digit_char; auto|].
      split.
      { rewrite decimal_value_snoc, V, N_of_digit_char by exact Hm.
        pose proof (N.div_mod n 10 ltac:(lia)) as DM.
        revert DM. generalize (n / 10) (n mod 10). intros q r DM. lia. }
      split.
      { intros _. destruct ds as [|c ds]; [cbn in Hlen; lia|].
        cbn. apply Hd. lia. }
      split; [lia|]. rewrite length_app. cbn. split; [lia|].
      intros H100. rewrite L1; [lia|].
      apply N.Div0.div_lt_upper_bound. lia.
Qed.

Lemma decimal_digits_spec (n : N) :
  digits_of (decimal_digits n) n.
Proof.
  unfold decimal_digits.
  assert (Hn : n < 10 ^ N.of_nat (S (N.to_nat (N.log2 n)))).
  { rewrite Nat2N.inj_succ, N2Nat.id.
    apply N.lt_le_trans with (2 ^ N.succ (N.log2 n)).
    - destruct n as [|p]; [reflexivity|]. apply N.log2_spec. lia.
    - apply N.pow_le_mono_l. lia. }
  destruct (digits_aux_spec _ n [] Hn) as (ds & E & H).
  rewrite app_nil_r in E. rewrite E. exact H.
Qed.

End Digits.

Section Strings.

Lemma length_text (l : list ascii) : String.length (text l) = List.length l.
Proof.
  unfold text. induction l as [|c l IH]; cbn; [reflexivity | now f_equal].
Qed.

Lemma chars_text (l : list ascii) : chars (text l) = l.
Proof. apply list_ascii_of_string_of_list_ascii. Qed.

Lemma chars_append (a b : string) :
  chars (String.append a b) = chars a ++ chars b.
Proof.
  unfold chars. induction a as [|c a IH]; simpl; [reflexivity | congruence].
Qed.

Lemma padStart_long (l : list ascii) :
  (2 <= List.length l)%nat -> padStart (text l) 2 "0" = text l.
Proof.
  intros H. unfold padStart. rewrite length_text.
  destruct (Nat.leb_spec 2 (List.length l)); [reflexivity | lia].
Qed.

Lemma padStart_single (c : ascii) :
  padStart (text [c]) 2 "0" = text ["0"%char; c].
Proof. reflexivity. Qed.

End Strings.

Section FormatArithmetic.

Lemma Qfloor_div_60 (t : Z) : Qfloor (inject_Z t / inject_Z 60) = t / 60.
Proof.
  unfold Qfloor, Qdiv, Qmult, Qinv, inject_Z. cbn. now rewrite Z.mul_1_r.
Qed.

Lemma floor_div_60 (t : Z) :
  Math_floor (Num.div (of_Z t) (of_Z 60)) = of_Z (t / 60).
Proof.
  unfold of_Z at 1 2. cbn [Num.div].
  change (Qeq_bool (inject_Z 60) 0) with false. cbn [Math_floor].
  f_equal. rewrite (Qfloor_comp _ _ (Qred_correct _)).
  apply Qfloor_div_60.
Qed.

Lemma Qtrunc_div_60 (t : Z) :
  0 <= t -> Qtrunc (inject_Z t / inject_Z 60) = t / 60.
Proof.
  intros H. unfold Qtrunc.
  assert (L : Qle_bool 0 (inject_Z t / inject_Z 60) = true).
  { apply Qle_bool_iff. unfold Qle, Qdiv, Qmult, Qinv, inject_Z. cbn. lia. }
  rewrite L. apply Qfloor_div_60.
Qed.

Lemma rem_60 (t : Z) :
  0 <= t -> Num.rem (of_Z t) (of_Z 60) = of_Z (t mod 60).
Proof.
  intros H. unfold of_Z at 1 2. cbn [Num.rem].
  change (Qeq_bool (inject_Z 60) 0) with false. cbv iota.
  rewrite (Qtrunc_div_60 _ H). unfold of_Z. f_equal.
  rewrite <- (Qred_inject_Z (t mod 60)). apply Qred_complete.
  rewrite Z.mod_eq by lia.
  unfold Qeq, Qminus, Qplus, Qopp, Qmult, inject_Z. cbn. lia.
Qed.

Lemma ToString_of_Z (n : Z) :
  0 <= n < 10 ^ 21 ->
  ToString (of_Z n) = text (decimal_digits (Z.to_N n)).
Proof.
  intros [H0 H1]. unfold ToString, of_Z.
  destruct (Z.eq_dec n 0) as [->|Hn]; [reflexivity|].
  assert (G : (inject_Z n ?= 0)%Q = Gt).
  { apply Qgt_alt. change 0%Q with (inject_Z 0). rewrite <- Zlt_Qlt. lia. }
  rewrite G. unfold positive_to_chars. rewrite Qred_inject_Z.
  assert (L : Qle_bool (inject_Z n) (inject_Z (10 ^ 21 - 1)) = true).
  { apply Qle_bool_iff. rewrite <- Zle_Qle. lia. }
  rewrite L. reflexivity.
Qed.

End FormatArithmetic.

Lemma decimal_value_leading_zero (l : list ascii) :
  decimal_value ("0"%char :: l) = decimal_value l.
Proof. reflexivity. Qed.

(** A whole number below 10^21, printed and padded to two places. *)
Lemma padStart_zero_padded (n : Z) :
  0 <= n < 10 ^ 21 ->
  let l := chars (padStart (ToString (of_Z n)) 2 "0") in
  zero_padded l n /\ (n < 100 -> List.length l = 2%nat).
Proof.
  intros Hn l. subst l. rewrite ToString_of_Z by exact Hn.
  destruct (decimal_digits_spec (Z.to_N n)) as (D & V & Hd & L1 & L2 & L3).
  assert (Vz : Z.of_N (decimal_value (decimal_digits (Z.to_N n))) = n)
    by (rewrite V; apply Z2N.id; lia).
  destruct (Z.lt_ge_cases n 10) as [Lt|Ge].
  - assert (Len : List.length (decimal_digits (Z.to_N n)) = 1%nat)
      by (apply L1; lia).
    destruct (decimal_digits (Z.to_N n)) as [|c [|c' ds]]; try discriminate.
    rewrite padStart_single, chars_text.
    split; [|reflexivity].
    split; [exact D|]. split; [exact Vz|]. split; cbn; lia.
  - assert (Len : (2 <= List.length (decimal_digits (Z.to_N n)))%nat)
      by (apply L2; lia).
    rewrite padStart_long by exact Len. rewrite chars_text.
    split.
    + split; [exact D|]. split; [exact Vz|]. split; [exact Len|].
      intros _. apply Hd. lia.
    + intros H100. assert ((List.length (decimal_digits (Z.to_N n)) <= 2)%nat)
        by (apply L3; lia). lia.
Qed.

(** The rendering is MM:SS as long as the minutes print in plain digits. *)
Lemma formatTime_renders_below_exponent (t : Z) :
  0 <= t < 60 * 10 ^ 21 -> renders_MMSS (formatTime (of_Z t)) t.
Proof.
  intros [H0 H1]. unfold formatTime, renders_MMSS.
  rewrite floor_div_60, rem_60 by exact H0.
  assert (Hm : 0 <= t / 60 < 10 ^ 21).
  { split; [apply Z.div_pos; lia|].
    apply Z.div_lt_upper_bound; lia. }
  assert (Hs : 0 <= t mod 60 < 60) by (apply Z.mod_pos_bound; lia).
  destruct (padStart_zero_padded (t / 60) Hm) as [Pm _].
  destruct (padStart_zero_padded (t mod 60)) as [Ps Ls]; [lia|].
  eexists _, _. rewrite !chars_append.
  split; [reflexivity|]. split; [exact Pm|]. split; [exact Ps|].
  apply Ls. lia.
Qed.

(** C8, as the code has it.  For every integer t from 0 to 2^53 - 1 (the
    integers a number holds exactly), formatTime(t) is MM:SS with
    MM = floor(t / 60) and SS = t mod 60 in decimal digits, each zero-padded
    to at least two places and SS exactly two; formatTime(65) is "01:05" and
    formatTime(0) is "00:00". *)
Theorem formatTime_renders_safe_integers :
  (forall t : Z,
      0 <= t <= MAX_SAFE_INTEGER -> renders_MMSS (formatTime (of_Z t)) t)
  /\ formatTime (of_Z 65) = "01:05"%string
  /\ formatTime (of_Z 0) = "00:00"%string.
Proof.
  split; [|split; vm_compute; reflexivity].
  intros t [H0 H1]. apply formatTime_renders_below_exponent.
  unfold MAX_SAFE_INTEGER in H1. lia.
Qed.

Lemma formatTime_renders_witness :
  (0 <= 3725 <= MAX_SAFE_INTEGER)
  /\ renders_MMSS (formatTime (of_Z 3725)) 3725.
Proof.
  assert (H : 0 <= 3725 <= MAX_SAFE_INTEGER) by (vm_compute; split; discriminate).
  exact (conj H (proj1 formatTime_renders_safe_integers 3725 H)).
Defined.

(** C8 fails as stated: at t = 6 * 10^22 the minutes are 10^21, which prints
    in exponent notation, so the rendering is "1e+21:00". *)
Lemma formatTime_exponent_notation :
  formatTime (of_Z (6 * 10 ^ 22)) = "1e+21:00"%string
  /\ ~ renders_MMSS (formatTime (of_Z (6 * 10 ^ 22))) (6 * 10 ^ 22).
Proof.
  assert (F : formatTime (of_Z (6 * 10 ^ 22)) = "1e+21:00"%string)
    by (vm_compute; reflexivity).
  split; [exact F|]. rewrite F. clear F.
  intros (mm & ss & E & (D & _) & _).
  destruct mm as [|c1 [|c2 mm]]; cbn in E; try discriminate E.
  injection E as <- <- _. discriminate D.
Qed.

(** * Further properties of the component *)

(** ** The commit keeps the React state *)

Lemma commit_isActive (prev s : state) :
  isActive (commit prev s) = isActive s.
Proof.
  unfold commit, cleanup, effect. destruct deps_changed; [|reflexivity].
  release_fields. destruct (_ && _); cbn; now release_fields.
Qed.

Lemma commit_isPaused (prev s : state) :
  isPaused (commit prev s) = isPaused s.
Proof.
  unfold commit, cleanup, effect. destruct deps_changed; [|reflexivity].
  release_fields. destruct (_ && _); cbn; now release_fields.
Qed.

Lemma step_Start_flags (s : state) :
  Num.gtb (timeLeft s) zero = true ->
  isActive (step ClickStart s) = true /\ isPaused (step ClickStart s) = false
  /\ timeLeft (step ClickStart s) = timeLeft s
  /\ duration (step ClickStart s) = duration s.
Proof.
  intros G. unfold step.
  rewrite commit_isActive, commit_isPaused, commit_timeLeft, commit_duration.
  cbn. unfold handleStart. rewrite G. cbn. auto.
Qed.

(** ** Start *)

(** X1.  Start acts exactly when TimeLeft is above 0.  From a reachable state it
    then leaves the component Running with exactly one live interval, the one
    the ref holds, and with TimeLeft and the pending input as they were;
    otherwise the state is unchanged. *)
Theorem handleStart_runs_one_interval (es : list event) :
  let s := run es init in
  let s' := step ClickStart s in
  (Num.gtb (timeLeft s) zero = true ->
   runState s' = Running
   /\ (exists t : timer, timerRef s' = Some t /\ intervals s' = {[t]})
   /\ timeLeft s' = timeLeft s /\ duration s' = duration s)
  /\ (Num.gtb (timeLeft s) zero = false -> s' = s).
Proof.
  intros s s'. split; intros G.
  - destruct (step_Start_flags s G) as (A & P & T & D).
    fold s' in A, P, T, D.
    pose proof (Inv_step ClickStart s (Inv_reachable es)) as [H1 H2 _ _ _].
    fold s' in H1, H2.
    split; [apply runState_Running; auto|].
    split; [|auto].
    destruct (timerRef s') as [t|] eqn:R.
    + exists t. split; [reflexivity | exact H1].
    + destruct H2 as [_ H2]. exfalso. apply H2; [|reflexivity].
      rewrite T. auto.
  - subst s'. unfold step. cbn. unfold handleStart. rewrite G.
    apply commit_same; reflexivity.
Qed.

Lemma handleStart_witness :
  let s := run [Change "10"; ClickSet] init in
  let s' := step ClickStart s in
  Num.gtb (timeLeft s) zero = true
  /\ (runState s' = Running
      /\ (exists t : timer, timerRef s' = Some t /\ intervals s' = {[t]})
      /\ timeLeft s' = timeLeft s /\ duration s' = duration s).
Proof.
  intros s s'.
  assert (G : Num.gtb (timeLeft s) zero = true) by (vm_compute; reflexivity).
  split; [exact G|].
  exact (proj1 (handleStart_runs_one_interval [Change "10"; ClickSet]) G).
Defined.

(** X2.  Start while Running changes nothing: no second interval is started and
    the handle in the ref stays. *)
Theorem handleStart_while_running (s : state) :
  runState s = Running -> step ClickStart s = s.
Proof.
  intros R. apply runState_Running in R as [A P].
  unfold step. cbn. unfold handleStart.
  destruct (Num.gtb (timeLeft s) zero).
  - destruct s as [d tl a p r iv nx]. cbn in *. subst a p.
    apply commit_same; reflexivity.
  - apply commit_same; reflexivity.
Qed.

Lemma handleStart_while_running_witness :
  let s := run [Change "10"; ClickSet; ClickStart; Tick 1%positive] init in
  runState s = Running /\ step ClickStart s = s.
Proof.
  intros s.
  assert (R : runState s = Running) by (vm_compute; reflexivity).
  exact (conj R (handleStart_while_running s R)).
Defined.

(** ** No tick without a held interval *)

(** X6.  In a reachable state that is not Running, or whose TimeLeft is not above
    0, no interval is live, so no tick can change anything: a paused, idle or
    finished timer does not count. *)
Theorem no_tick_unless_running (es : list event) (t : timer) :
  let s := run es init in
  runState s <> Running \/ Num.gtb (timeLeft s) zero = false ->
  intervals s = ∅ /\ step (Tick t) s = s.
Proof.
  intros s H. pose proof (Inv_reachable es) as [H1 H2 _ _ _].
  fold s in H1, H2.
  assert (R : timerRef s = None).
  { destruct (timerRef s) eqn:E; [|reflexivity]. exfalso.
    destruct H2 as [H2 _]. destruct H2 as (A & P & G); [congruence|].
    destruct H as [H|H]; [apply H, runState_Running; auto | congruence]. }
  rewrite R in H1. cbn in H1. split; [exact H1|].
  unfold step. cbn. destruct (decide (t ∈ intervals s)) as [Hin|].
  - rewrite H1 in Hin. now apply not_elem_of_empty in Hin.
  - apply commit_same; reflexivity.
Qed.

Lemma no_tick_unless_running_witness :
  let es := [Change "10"; ClickSet; ClickStart; ClickPause] in
  (runState (run es init) <> Running
   \/ Num.gtb (timeLeft (run es init)) zero = false)
  /\ (intervals (run es init) = ∅
      /\ step (Tick 1%positive) (run es init) = run es init).
Proof.
  intros es.
  assert (H : runState (run es init) <> Running
              \/ Num.gtb (timeLeft (run es init)) zero = false)
    by (left; vm_compute; discriminate).
  exact (conj H (no_tick_unless_running es 1%positive H)).
Defined.

(** ** What never happens *)

(** X11.  In every reachable state the two flags are not both set, TimeLeft is not
    NaN and the stored duration is not NaN. *)
Theorem flags_exclusive_and_no_NaN (es : list event) :
  let s := run es init in
  isActive s && isPaused s = false
  /\ isNaN (timeLeft s) = false
  /\ duration s <> DNum NaN.
Proof.
  intros s. pose proof (Inv_reachable es) as [_ _ H3 H4 H5].
  fold s in H3, H4, H5. split; [|auto].
  destruct (isActive s); [|reflexivity]. now rewrite H5.
Qed.

(** ** Counting down *)

Lemma tick_running_on (t : timer) (s : state) (m : Z) :
  running_on t s -> timeLeft s = of_Z m -> 1 <= m ->
  let s' := step (Tick t) s in
  timeLeft s' = of_Z (m - 1)
  /\ isActive s' = true /\ isPaused s' = false
  /\ duration s' = duration s
  /\ (1 < m -> running_on t s')
  /\ (m = 1 -> timerRef s' = None /\ intervals s' = ∅).
Proof.
  intros (R & I & A & P) T Hm s'.
  assert (Hin : t ∈ intervals s) by (rewrite I; now apply elem_of_singleton).
  subst s'. rewrite (step_Tick _ _ Hin).
  unfold running_on.
  rewrite tick_timeLeft, tick_timerRef, tick_intervals, tick_isActive,
    tick_isPaused, tick_duration, R, I, T, A, P. cbn [held].
  change one with (of_Z 1). rewrite sub_of_Z.
  split; [reflexivity|]. split; [reflexivity|]. split; [reflexivity|].
  split; [reflexivity|].
  destruct (Num.leb (of_Z m) (of_Z 1)) eqn:L.
  - apply leb_of_Z in L. split; [lia|]. intros _.
    split; [reflexivity | apply difference_diag_L].
  - split; [auto|]. intros ->. discriminate L.
Qed.

Lemma ticks_running_on (t : timer) (k : nat) :
  forall (s : state) (m : Z),
    running_on t s -> timeLeft s = of_Z m -> 1 <= m -> Z.of_nat k <= m ->
    let s' := run (List.repeat (Tick t) k) s in
    timeLeft s' = of_Z (m - Z.of_nat k)
    /\ isActive s' = true /\ isPaused s' = false
    /\ duration s' = duration s
    /\ (Z.of_nat k < m -> running_on t s')
    /\ (Z.of_nat k = m -> timerRef s' = None /\ intervals s' = ∅).
Proof.
  induction k as [|k IH]; intros s m Ro T Hm Hk; cbn [List.repeat run].
  - rewrite Z.sub_0_r. destruct Ro as (R & I & A & P).
    repeat split; auto; cbn in *; lia.
  - destruct (tick_running_on t s m Ro T Hm) as (T' & A' & P' & D' & Ro' & Z').
    destruct (Z.eq_dec m 1) as [->|Hne].
    + assert (k = 0%nat) as -> by lia. cbn [List.repeat run].
      destruct (Z' eq_refl) as [R0 I0].
      repeat split; auto; lia.
    + assert (Hm' : 1 <= m - 1) by lia.
      destruct (IH (step (Tick t) s) (m - 1) (Ro' ltac:(lia)) T' Hm'
                  ltac:(lia)) as (T2 & A2 & P2 & D2 & Ro2 & Z2).
      split; [rewrite T2; f_equal; lia|].
      split; [exact A2|]. split; [exact P2|].
      split; [now rewrite D2|]. split; intros H; [apply Ro2 | apply Z2]; lia.
Qed.

Lemma step_Set_state (s : state) (n : number) :
  duration s = DNum n -> Num.gtb n zero = true ->
  step ClickSet s =
  mkState (DStr "") n false false None
          (intervals s ∖ held (timerRef s)) (nextTimer s).
Proof.
  intros D G.
  rewrite step_inactive; cbn; unfold handleSetDuration; rewrite D, G;
    release_fields; try reflexivity.
  unfold releaseTimer. cbn. destruct (timerRef s) eqn:R; cbn; [reflexivity|].
  unfold setDuration, setIsPaused, setIsActive, setTimeLeft. cbn.
  now rewrite R, difference_empty_L.
Qed.

Lemma Set_then_Start (s : state) (n : Z) :
  Inv s -> duration s = DNum (of_Z n) -> 1 <= n ->
  let s' := run [ClickSet; ClickStart] s in
  running_on (nextTimer s) s' /\ timeLeft s' = of_Z n
  /\ duration s' = DStr "" /\ nextTimer s' = Pos.succ (nextTimer s).
Proof.
  intros HI D Hn s'.
  assert (G : Num.gtb (of_Z n) zero = true) by (apply gtb_of_Z; lia).
  destruct HI as [H1 _ _ _ _].
  subst s'. cbn [run]. rewrite (step_Set_state s _ D G).
  rewrite H1, difference_diag_L.
  unfold step. cbn [handle]. unfold handleStart. cbn [timeLeft].
  rewrite G. unfold running_on. cbn.
  repeat split. apply union_empty_r_L.
Qed.

Lemma run_app (es1 es2 : list event) (s : state) :
  run (es1 ++ es2) s = run es2 (run es1 s).
Proof.
  revert s. induction es1 as [|e es1 IH]; intros s; cbn; [reflexivity|].
  apply IH.
Qed.

(** X3.  From a reachable state whose pending input is a whole number n
    with 1 <= n <= 2^53 - 1, Set, Start and k ticks of the started interval
    (k <= n) leave TimeLeft = n - k with the component Running; the interval
    stays the one live interval while k < n, and the n-th tick releases it. *)
Theorem countdown_reaches_zero (es : list event) (n : Z) (k : nat) :
  let s := run es init in
  duration s = DNum (of_Z n) -> 1 <= n <= MAX_SAFE_INTEGER ->
  Z.of_nat k <= n ->
  let t := nextTimer s in
  let s' := run ([ClickSet; ClickStart] ++ List.repeat (Tick t) k) s in
  timeLeft s' = of_Z (n - Z.of_nat k)
  /\ runState s' = Running
  /\ (Z.of_nat k < n -> timerRef s' = Some t /\ intervals s' = {[t]})
  /\ (Z.of_nat k = n -> timerRef s' = None /\ intervals s' = ∅).
Proof.
  intros s D [Hn _] Hk t s'. subst s'. rewrite run_app.
  destruct (Set_then_Start s n (Inv_reachable es) D Hn) as (Ro & T & _ & _).
  fold t in Ro.
  destruct (ticks_running_on t k _ n Ro T Hn Hk) as (T' & A & P & _ & L & Z).
  split; [exact T'|]. split; [apply runState_Running; auto|].
  split; [|exact Z]. intros H. destruct (L H) as (R & I & _). auto.
Qed.

Lemma countdown_reaches_zero_witness :
  let s := run [Change "3"] init in
  let s' := run ([ClickSet; ClickStart]
                 ++ List.repeat (Tick (nextTimer s)) 3) s in
  (duration s = DNum (of_Z 3) /\ 1 <= 3 <= MAX_SAFE_INTEGER
   /\ Z.of_nat 3 <= 3)
  /\ timeLeft s' = of_Z (3 - Z.of_nat 3)
  /\ runState s' = Running
  /\ (Z.of_nat 3 < 3 ->
      timerRef s' = Some (nextTimer s) /\ intervals s' = {[nextTimer s]})
  /\ (Z.of_nat 3 = 3 -> timerRef s' = None /\ intervals s' = ∅).
Proof.
  intros s s'.
  assert (D : duration s = DNum (of_Z 3)) by reflexivity.
  assert (H1 : 1 <= 3 <= MAX_SAFE_INTEGER)
    by (vm_compute; split; discriminate).
  assert (H2 : Z.of_nat 3 <= 3) by (cbn; lia).
  split; [exact (conj D (conj H1 H2))|].
  exact (countdown_reaches_zero [Change "3"] 3 3 D H1 H2).
Defined.

(** ** Pause and resume *)

Lemma fresh_same (s s' : state) :
  timerRef s' = timerRef s -> nextTimer s' = nextTimer s ->
  fresh s -> fresh s'.
Proof. unfold fresh. now intros -> ->. Qed.

Lemma fresh_release (s : state) : fresh (releaseTimer s).
Proof. unfold fresh. now rewrite releaseTimer_timerRef. Qed.

Lemma fresh_handle (e : event) (s : state) : fresh s -> fresh (handle e s).
Proof.
  intros H. destruct e; cbn [handle].
  - unfold handleDurationChange. now destruct (negb _).
  - unfold handleSetDuration.
    destruct (duration s) as [n|]; [destruct (Num.gtb n zero)|]; try exact H.
    apply fresh_release.
  - unfold handleStart. now destruct (Num.gtb _ _).
  - unfold handlePause. destruct (isActive s); [|exact H].
    apply fresh_release.
  - apply fresh_release.
  - destruct (decide _); [|exact H]. unfold tick.
    destruct (Num.leb _ _).
    + apply (fresh_same (releaseTimer s)); [reflexivity .. |].
      apply fresh_release.
    + exact H.
Qed.

Lemma fresh_commit (prev s : state) : fresh s -> fresh (commit prev s).
Proof.
  intros H. unfold commit, cleanup, effect.
  destruct deps_changed; [|exact H].
  release_fields. destruct (_ && _); [|apply fresh_release].
  unfold fresh. cbn. release_fields. apply Pos.lt_succ_diag_r.
Qed.

Lemma fresh_reachable (es : list event) : fresh (run es init).
Proof.
  assert (G : forall s, fresh s -> fresh (run es s)).
  { induction es as [|e es IH]; intros s H; cbn; [exact H|].
    apply IH, fresh_commit, fresh_handle, H. }
  apply G. exact Logic.I.
Qed.

Lemma step_Pause_state (s : state) :
  isActive s = true -> accounted s ->
  step ClickPause s =
  mkState (duration s) (timeLeft s) false true None ∅ (nextTimer s).
Proof.
  intros A H.
  rewrite step_inactive; cbn; unfold handlePause; rewrite A;
    release_fields; try reflexivity.
  unfold accounted in H. unfold releaseTimer. cbn.
  unfold setTimerRef, clearInterval, setIsActive, setIsPaused. cbn.
  destruct (timerRef s) eqn:R; cbn; rewrite H; cbn.
  - now rewrite difference_diag_L.
  - reflexivity.
Qed.

(** X5.  Pausing a running countdown and resuming it continues from the same
    TimeLeft: after Pause the start button reads Resume; after the click the
    component is Running again with TimeLeft and the pending input as before
    the pause, on one live interval, which is a new one. *)
Theorem pause_then_resume (es : list event) :
  let s := run es init in
  timerRef s <> None ->
  let s1 := step ClickPause s in
  let s' := step ClickStart s1 in
  startLabel (render s1) = "Resume"%string
  /\ startLabel (render s') = "Start"%string
  /\ runState s' = Running
  /\ timeLeft s' = timeLeft s /\ duration s' = duration s
  /\ timerRef s' = Some (nextTimer s) /\ intervals s' = {[nextTimer s]}
  /\ timerRef s <> Some (nextTimer s).
Proof.
  intros s R s1 s'.
  pose proof (Inv_reachable es) as [H1 H2 _ _ _]. fold s in H1, H2.
  pose proof (fresh_reachable es) as F. fold s in F.
  apply H2 in R as (A & P & G).
  assert (E1 : s1 = mkState (duration s) (timeLeft s) false true None ∅
                            (nextTimer s))
    by (apply step_Pause_state; assumption).
  subst s'. rewrite E1.
  unfold step. cbn [handle]. unfold handleStart. cbn [timeLeft].
  rewrite G. unfold runState. cbn.
  repeat split; try apply union_empty_r_L.
  intros E. unfold fresh in F. rewrite E in F.
  now apply Pos.lt_irrefl in F.
Qed.

Lemma pause_then_resume_witness :
  let s := run [Change "10"; ClickSet; ClickStart; Tick 1%positive] init in
  let s' := run [ClickPause; ClickStart] s in
  timerRef s <> None
  /\ runState s' = Running /\ timeLeft s' = timeLeft s
  /\ timerRef s' = Some (nextTimer s).
Proof.
  intros s s'.
  assert (R : timerRef s <> None) by (vm_compute; discriminate).
  destruct (pause_then_resume
              [Change "10"; ClickSet; ClickStart; Tick 1%positive] R)
    as (_ & _ & Ru & T & _ & Rf & _).
  exact (conj R (conj Ru (conj T Rf))).
Defined.

(** ** Typing into the duration field *)

Lemma step_Change (v : string) (s : state) :
  step (Change v) s = handleDurationChange v s.
Proof.
  unfold step. apply commit_same; cbn; unfold handleDurationChange;
    now destruct (negb _).
Qed.


(** X9.  ASCII text that is not a number leaves the pending input empty, and
    a Set that follows is ignored: the state, TimeLeft included, stays as it
    is. *)
Theorem non_numeric_input_is_ignored (v : string) (s : state) :
  ascii_text v = true -> ToNumber v = NaN ->
  let s' := step (Change v) s in
  duration s' = DStr "" /\ step ClickSet s' = s' /\ timeLeft s' = timeLeft s.
Proof.
  intros _ N s'. subst s'. rewrite step_Change. unfold handleDurationChange.
  rewrite N. cbn. split; [reflexivity|]. split; [|reflexivity].
  apply step_Set_reject. cbn. discriminate.
Qed.

Lemma non_numeric_input_witness :
  let s := run [Change "10"; ClickSet] init in
  let s' := step (Change "ten") s in
  (ascii_text "ten" = true /\ ToNumber "ten" = NaN)
  /\ (duration s' = DStr "" /\ step ClickSet s' = s'
      /\ timeLeft s' = timeLeft s).
Proof.
  intros s s'.
  assert (A : ascii_text "ten" = true) by reflexivity.
  assert (N : ToNumber "ten" = NaN) by reflexivity.
  exact (conj (conj A N) (non_numeric_input_is_ignored "ten" s A N)).
Defined.

(** ** Clicking twice *)

(** X10.  Each of the four buttons is idempotent in every state: a second click
    right after the first changes nothing. *)
Theorem click_twice (e : event) (s : state) :
  is_click e = true -> step e (step e s) = step e s.
Proof.
  intros C. destruct e; try discriminate C; clear C.
  - (* Set *)
    destruct (duration s) as [n|v] eqn:D.
    + destruct (Num.gtb n zero) eqn:G.
      * rewrite (step_Set_state s n D G).
        apply step_Set_reject. cbn. discriminate.
      * assert (E : step ClickSet s = s).
        { apply step_Set_reject. intros m. rewrite D. now intros [= <-]. }
        now rewrite !E.
    + assert (E : step ClickSet s = s).
      { apply step_Set_reject. intros m. rewrite D. discriminate. }
      now rewrite !E.
  - (* Start *)
    destruct (Num.gtb (timeLeft s) zero) eqn:G.
    + destruct (step_Start_flags s G) as (A & P & T & _).
      set (s1 := step ClickStart s) in *. unfold step. cbn [handle].
      unfold handleStart. rewrite T, G.
      destruct s1 as [d tl a p r iv nx]. cbn in *. subst a p.
      apply commit_same; reflexivity.
    + assert (E : step ClickStart s = s).
      { unfold step. cbn. unfold handleStart. rewrite G.
        apply commit_same; reflexivity. }
      now rewrite !E.
  - (* Pause *)
    destruct (isActive s) eqn:A.
    + assert (A' : isActive (step ClickPause s) = false).
      { unfold step. rewrite commit_isActive. cbn. unfold handlePause.
        rewrite A. now release_fields. }
      unfold step at 1. cbn [handle]. unfold handlePause at 1. rewrite A'.
      apply commit_same; reflexivity.
    + assert (E : step ClickPause s = s).
      { unfold step. cbn. unfold handlePause. rewrite A.
        apply commit_same; reflexivity. }
      now rewrite !E.
  - (* Reset *)
    rewrite !step_Reset. unfold handleReset. release_fields. cbn.
    rewrite releaseTimer_idle by apply releaseTimer_timerRef.
    destruct s as [d tl a p r iv nx]. unfold releaseTimer. cbn.
    destruct r; reflexivity.
Qed.

Lemma click_twice_witness :
  let s := run [Change "10"; ClickSet; ClickStart; Tick 1%positive] init in
  is_click ClickPause = true
  /\ step ClickPause (step ClickPause s) = step ClickPause s.
Proof.
  intros s.
  exact (conj eq_refl (click_twice ClickPause s eq_refl)).
Defined.

(** ** TimeLeft and the values typed *)

Lemma whole_input_upto_cases (b : Z) (v : string) :
  whole_input_upto b v = true ->
  isNaN (ToNumber v) = true
  \/ (isNaN (ToNumber v) = false
      /\ exists n : Z, 0 <= n <= b /\ ToNumber v = of_Z n).
Proof.
  unfold whole_input_upto. intros H.
  apply andb_true_iff in H as [_ H].
  destruct (isNaN (ToNumber v)) eqn:N; [now left|right].
  split; [reflexivity|]. cbn in H.
  apply andb_true_iff in H as [H1 H2].
  destruct (nonneg_whole_of_Z _ H1) as (n & Hn & E).
  exists n. rewrite E in H2. apply leb_of_Z in H2. auto.
Qed.

Lemma WholeUpto_init (b : Z) : 0 <= b -> WholeUpto b init.
Proof. intros H. split; [exists 0; split; [lia | reflexivity] | exact Logic.I]. Qed.

Lemma WholeUpto_step (b : Z) (e : event) (s : state) :
  0 <= b -> whole_event_upto b e = true -> Inv s ->
  WholeUpto b s -> WholeUpto b (step e s).
Proof.
  intros Hb He HI [(n & Hn & T) D]. unfold WholeUpto, step.
  rewrite commit_timeLeft, commit_duration.
  destruct e; cbn [handle].
  - (* Change *)
    unfold handleDurationChange. cbn in He.
    destruct (whole_input_upto_cases b value He) as [N|(N & m & Hm & E)];
      rewrite N; cbn.
    + split; [now exists n | exact Logic.I].
    + split; [now exists n | now exists m].
  - (* Set *)
    unfold handleSetDuration.
    destruct (duration s) as [x|] eqn:Dx.
    + destruct (Num.gtb x zero); release_fields; cbn.
      * split; [exact D | exact Logic.I].
      * rewrite Dx. split; [now exists n | exact D].
    + rewrite Dx. split; [now exists n | exact Logic.I].
  - (* Start *)
    unfold handleStart. destruct (Num.gtb (timeLeft s) zero); cbn.
    all: split; [now exists n | exact D].
  - (* Pause *)
    unfold handlePause. destruct (isActive s); release_fields; cbn.
    all: split; [now exists n | exact D].
  - (* Reset *)
    unfold handleReset. release_fields. cbn. split; [|exact D].
    destruct (duration s) as [x|]; [exact D|].
    exists 0. split; [lia | reflexivity].
  - (* Tick *)
    destruct (decide (t ∈ intervals s)) as [Hin|].
    2: split; [now exists n | exact D].
    rewrite tick_timeLeft, tick_duration. split; [|exact D].
    destruct HI as [H1 H2 _ _ _]. rewrite H1 in Hin.
    destruct (timerRef s) as [t'|];
      [|now apply not_elem_of_empty in Hin].
    destruct H2 as [H2 _]. destruct H2 as (_ & _ & G); [congruence|].
    rewrite T in G. apply gtb_of_Z in G.
    exists (n - 1). split; [lia|]. rewrite T. apply sub_of_Z.
Qed.

Lemma WholeUpto_run (b : Z) (es : list event) (s : state) :
  0 <= b -> forallb (whole_event_upto b) es = true -> Inv s ->
  WholeUpto b s -> WholeUpto b (run es s).
Proof.
  intros Hb. revert s.
  induction es as [|e es IH]; intros s Hes HI HW; cbn; [exact HW|].
  cbn in Hes. apply andb_true_iff in Hes as [He Hes].
  apply IH; [exact Hes | now apply Inv_step | now apply WholeUpto_step].
Qed.

(** X12.  TimeLeft never exceeds what was typed: when every text typed is
    ASCII text that denotes a whole number of seconds from 0 to b (or no
    number at all), with b at most 2^53 - 1, TimeLeft is a whole number from
    0 to b in every reachable state. *)
Theorem TimeLeft_bounded_by_inputs (b : Z) (es : list event) :
  0 <= b <= MAX_SAFE_INTEGER ->
  forallb (whole_event_upto b) es = true ->
  exists n : Z, 0 <= n <= b /\ timeLeft (run es init) = of_Z n.
Proof.
  intros [Hb _] Hes.
  apply (WholeUpto_run b es init Hb Hes Inv_init (WholeUpto_init b Hb)).
Qed.

Lemma TimeLeft_bounded_witness :
  let es := [Change "90"; ClickSet; Change "5"; ClickStart;
             Tick 1%positive; ClickReset] in
  (0 <= 90 <= MAX_SAFE_INTEGER
   /\ forallb (whole_event_upto 90) es = true)
  /\ exists n : Z, 0 <= n <= 90 /\ timeLeft (run es init) = of_Z n.
Proof.
  intros es.
  assert (Hb : 0 <= 90 <= MAX_SAFE_INTEGER)
    by (vm_compute; split; discriminate).
  assert (H : forallb (whole_event_upto 90) es = true)
    by (vm_compute; reflexivity).
  exact (conj (conj Hb H) (TimeLeft_bounded_by_inputs 90 es Hb H)).
Defined.

(** X13.  The display is always a well-formed time: when every text typed
    is ASCII text that denotes a whole number of seconds from 0 to 2^53 - 1
    (or no number at all), the rendered display is MM:SS of TimeLeft in every
    reachable state. *)
Theorem display_is_MMSS (es : list event) :
  forallb (whole_event_upto MAX_SAFE_INTEGER) es = true ->
  let s := run es init in
  exists n : Z,
    0 <= n <= MAX_SAFE_INTEGER /\ timeLeft s = of_Z n
    /\ renders_MMSS (display (render s)) n.
Proof.
  intros Hes s.
  assert (Hb : 0 <= MAX_SAFE_INTEGER) by (vm_compute; discriminate).
  destruct (WholeUpto_run _ es init Hb Hes Inv_init
              (WholeUpto_init _ Hb)) as [(n & Hn & T) _].
  fold s in T. exists n. split; [exact Hn|]. split; [exact T|].
  cbn. rewrite T. apply formatTime_renders_below_exponent.
  unfold MAX_SAFE_INTEGER in Hn. lia.
Qed.

Lemma display_is_MMSS_witness :
  let es := [Change "90"; ClickSet; ClickStart; Tick 1%positive] in
  forallb (whole_event_upto MAX_SAFE_INTEGER) es = true
  /\ exists n : Z,
      0 <= n <= MAX_SAFE_INTEGER /\ timeLeft (run es init) = of_Z n
      /\ renders_MMSS (display (render (run es init))) n.
Proof.
  intros es.
  assert (H : forallb (whole_event_upto MAX_SAFE_INTEGER) es = true)
    by (vm_compute; reflexivity).
  exact (conj H (display_is_MMSS es H)).
Defined.

(** ** Reading the display back *)

Lemma is_digit_not_colon (c : ascii) :
  is_digit c = true -> Ascii.eqb c ":"%char = false.
Proof.
  unfold is_digit. intros H. apply andb_true_iff in H as [_ H].
  apply N.leb_le in H. apply Ascii.eqb_neq. intros ->. cbn in H. lia.
Qed.

Lemma split_colon_digits (mm ss : list ascii) :
  all_digits mm = true -> split_colon (mm ++ ":"%char :: ss) = Some (mm, ss).
Proof.
  induction mm as [|c mm IH]; intros H; cbn; [reflexivity|].
  cbn in H. apply andb_true_iff in H as [Hc H].
  now rewrite (is_digit_not_colon c Hc), (IH H).
Qed.

Lemma read_MMSS_renders (out : string) (t : Z) :
  renders_MMSS out t -> read_MMSS out = Some t.
Proof.
  intros (mm & ss & E & (Dm & Vm & _) & (Ds & Vs & _) & _).
  unfold read_MMSS. rewrite E, (split_colon_digits mm ss Dm), Dm, Ds, Vm, Vs.
  cbn. f_equal. pose proof (Z.div_mod t 60 ltac:(lia)). lia.
Qed.

(** X14.  The rendering can be read back: for every integer t from 0 to 2^53 - 1,
    splitting formatTime(t) at the colon and reading the two parts as decimal
    numbers gives back 60 * minutes + seconds = t; so different times in that
    range render differently. *)
Theorem formatTime_read_back :
  (forall t : Z,
      0 <= t <= MAX_SAFE_INTEGER ->
      read_MMSS (formatTime (of_Z t)) = Some t)
  /\ (forall t1 t2 : Z,
         0 <= t1 <= MAX_SAFE_INTEGER -> 0 <= t2 <= MAX_SAFE_INTEGER ->
         formatTime (of_Z t1) = formatTime (of_Z t2) -> t1 = t2).
Proof.
  assert (R : forall t : Z,
             0 <= t <= MAX_SAFE_INTEGER ->
             read_MMSS (formatTime (of_Z t)) = Some t).
  { intros t Ht. apply read_MMSS_renders, formatTime_renders_below_exponent.
    unfold MAX_SAFE_INTEGER in Ht. lia. }
  split; [exact R|].
  intros t1 t2 H1 H2 E.
  pose proof (R t1 H1) as R1. rewrite E, (R t2 H2) in R1. congruence.
Qed.

Lemma formatTime_read_back_witness :
  (0 <= 3725 <= MAX_SAFE_INTEGER)
  /\ read_MMSS (formatTime (of_Z 3725)) = Some 3725.
Proof.
  assert (H : 0 <= 3725 <= MAX_SAFE_INTEGER)
    by (vm_compute; split; discriminate).
  exact (conj H (proj1 formatTime_read_back 3725 H)).
Defined.

(** ** Width of the display *)

Lemma length_chars (s : string) : String.length s = List.length (chars s).
Proof.
  unfold chars. induction s as [|c s IH]; cbn; [reflexivity | now f_equal].
Qed.

(** X15.  Below 100 minutes the rendering has exactly five characters, the colon
    third: two digits of minutes, the colon, two digits of seconds. *)
Theorem formatTime_five_characters (t : Z) :
  0 <= t < 6000 ->
  String.length (formatTime (of_Z t)) = 5%nat
  /\ exists m1 m2 s1 s2 : ascii,
      chars (formatTime (of_Z t)) = [m1; m2; ":"%char; s1; s2].
Proof.
  intros [H0 H1].
  assert (Hm : 0 <= t / 60 < 100).
  { split; [apply Z.div_pos; lia | apply Z.div_lt_upper_bound; lia]. }
  assert (Hs : 0 <= t mod 60 < 60) by (apply Z.mod_pos_bound; lia).
  destruct (padStart_zero_padded (t / 60)) as [_ Lm]; [lia|].
  destruct (padStart_zero_padded (t mod 60)) as [_ Ls]; [lia|].
  specialize (Lm ltac:(lia)). specialize (Ls ltac:(lia)).
  assert (E : chars (formatTime (of_Z t)) =
              chars (padStart (ToString (of_Z (t / 60))) 2 "0")
              ++ ":"%char
              :: chars (padStart (ToString (of_Z (t mod 60))) 2 "0")).
  { unfold formatTime. rewrite floor_div_60, rem_60 by exact H0.
    now rewrite !chars_append. }
  rewrite length_chars, E.
  destruct (chars (padStart (ToString (of_Z (t / 60))) 2 "0"))
    as [|m1 [|m2 [|? ?]]]; try discriminate Lm.
  destruct (chars (padStart (ToString (of_Z (t mod 60))) 2 "0"))
    as [|s1 [|s2 [|? ?]]]; try discriminate Ls.
  split; [reflexivity|]. now exists m1, m2, s1, s2.
Qed.

Lemma formatTime_five_characters_witness :
  (0 <= 5999 < 6000)
  /\ (String.length (formatTime (of_Z 5999)) = 5%nat
      /\ exists m1 m2 s1 s2 : ascii,
          chars (formatTime (of_Z 5999)) = [m1; m2; ":"%char; s1; s2]).
Proof.
  assert (H : 0 <= 5999 < 6000) by lia.
  exact (conj H (formatTime_five_characters 5999 H)).
Defined.

(** ** Negative times *)

Lemma ToString_of_Z_neg (n : Z) :
  - 10 ^ 21 < n < 0 ->
  ToString (of_Z n) = text ("-"%char :: decimal_digits (Z.to_N (- n))).
Proof.
  intros [H0 H1]. unfold ToString, of_Z.
  assert (L : (inject_Z n ?= 0)%Q = Lt).
  { apply (proj1 (Qlt_alt _ _)). unfold Qlt. cbn. lia. }
  rewrite L. unfold positive_to_chars.
  change (- inject_Z n)%Q with (inject_Z (- n)).
  rewrite Qred_inject_Z.
  assert (B : Qle_bool (inject_Z (- n)) (inject_Z (10 ^ 21 - 1)) = true).
  { apply Qle_bool_iff. rewrite <- Zle_Qle. lia. }
  rewrite B. reflexivity.
Qed.

(** X16.  A negative whole TimeLeft is not rendered as a time: for every integer t
    with -(2^53 - 1) <= t < 0 the rendering starts with a minus sign, and it
    is the MM:SS rendering of no number of seconds. *)
Theorem formatTime_negative (t : Z) :
  - MAX_SAFE_INTEGER <= t < 0 ->
  (exists rest : list ascii,
      chars (formatTime (of_Z t)) = "-"%char :: rest)
  /\ (forall u : Z, ~ renders_MMSS (formatTime (of_Z t)) u)
  /\ read_MMSS (formatTime (of_Z t)) = None.
Proof.
  intros [H0 H1]. unfold MAX_SAFE_INTEGER in H0.
  assert (Hm : - 10 ^ 21 < t / 60 < 0).
  { split; [|apply Z.div_lt_upper_bound; lia].
    apply Z.lt_le_trans with (- (2 ^ 53)); [lia|].
    apply Z.div_le_lower_bound; lia. }
  set (ds := decimal_digits (Z.to_N (- (t / 60)))).
  assert (Hd : (1 <= List.length ds)%nat).
  { destruct (decimal_digits_spec (Z.to_N (- (t / 60))))
      as (_ & _ & _ & L1 & L2 & _). fold ds in L1, L2.
    destruct (N.lt_ge_cases (Z.to_N (- (t / 60))) 10) as [L|L];
      [rewrite (L1 L) | specialize (L2 L)]; lia. }
  assert (E : exists rest : list ascii,
             chars (formatTime (of_Z t)) = "-"%char :: ds ++ ":"%char :: rest).
  { unfold formatTime. rewrite floor_div_60, (ToString_of_Z_neg _ Hm).
    fold ds. rewrite padStart_long by (cbn [List.length]; lia).
    rewrite !chars_append, chars_text. cbn. eexists. reflexivity. }
  destruct E as (rest & E).
  split; [rewrite E; eexists; reflexivity|].
  split.
  - intros u (mm & ss & E' & (D & _) & _). rewrite E in E'.
    destruct mm as [|c mm]; [discriminate E'|].
    injection E' as <- _. discriminate D.
  - unfold read_MMSS. rewrite E. cbn [split_colon].
    change (Ascii.eqb "-" ":") with false. cbv iota.
    destruct (split_colon (ds ++ ":"%char :: rest)) as [[a b]|];
      reflexivity.
Qed.

Lemma formatTime_negative_witness :
  (- MAX_SAFE_INTEGER <= -3 < 0)
  /\ ((exists rest : list ascii,
          chars (formatTime (of_Z (-3))) = "-"%char :: rest)
      /\ (forall u : Z, ~ renders_MMSS (formatTime (of_Z (-3))) u)
      /\ read_MMSS (formatTime (of_Z (-3))) = None).
Proof.
  assert (H : - MAX_SAFE_INTEGER <= -3 < 0)
    by (vm_compute; split; [discriminate | reflexivity]).
  exact (conj H (formatTime_negative (-3) H)).
Defined.

(** ** Every countdown ends *)

Lemma tick_running_on_Q (t : timer) (s : state) (q : Q) :
  running_on t s -> timeLeft s = Fin q ->
  let s' := step (Tick t) s in
  timeLeft s' = Fin (Qred (q - 1))
  /\ isActive s' = true /\ isPaused s' = false
  /\ (1 < q -> running_on t s')%Q
  /\ (q <= 1 -> timerRef s' = None /\ intervals s' = ∅)%Q.
Proof.
  intros (R & I & A & P) T s'.
  assert (Hin : t ∈ intervals s) by (rewrite I; now apply elem_of_singleton).
  subst s'. rewrite (step_Tick _ _ Hin). unfold running_on.
  rewrite tick_timeLeft, tick_timerRef, tick_intervals, tick_isActive,
    tick_isPaused, R, I, T, A, P. cbn [held].
  split; [reflexivity|]. split; [reflexivity|]. split; [reflexivity|].
  unfold one, of_Z. change (inject_Z 1) with 1%Q.
  destruct (Num.leb (Fin q) (Fin 1)) eqn:L.
  - apply leb_Fin in L. split; [intros H; lra|]. intros _.
    split; [reflexivity | apply difference_diag_L].
  - apply leb_Fin_false in L. split; [auto|]. intros H. lra.
Qed.

Lemma inject_Z_S (n : nat) :
  (inject_Z (Z.of_nat (S n)) == inject_Z (Z.of_nat n) + 1)%Q.
Proof.
  rewrite Nat2Z.inj_succ. unfold Z.succ. now rewrite inject_Z_plus.
Qed.

Lemma ticks_running_on_Q (t : timer) (k : nat) :
  forall (s : state) (q : Q),
    running_on t s -> timeLeft s = Fin q ->
    (inject_Z (Z.of_nat k) < q <= inject_Z (Z.of_nat (S k)))%Q ->
    running_on t (run (List.repeat (Tick t) k) s)
    /\ let s' := run (List.repeat (Tick t) (S k)) s in
       timerRef s' = None /\ intervals s' = ∅
       /\ isActive s' = true /\ isPaused s' = false
       /\ exists q' : Q,
           timeLeft s' = Fin q'
           /\ (q' == q - inject_Z (Z.of_nat (S k)))%Q.
Proof.
  induction k as [|k IH]; intros s q Ro T [Hlo Hhi].
  - split; [exact Ro|]. cbn [List.repeat run].
    destruct (tick_running_on_Q t s q Ro T) as (T' & A' & P' & _ & Z').
    change (inject_Z (Z.of_nat 1)) with 1%Q in *.
    destruct (Z' Hhi) as [R0 I0].
    repeat split; try assumption.
    exists (Qred (q - 1)). split; [exact T'|]. apply Qred_correct.
  - destruct (tick_running_on_Q t s q Ro T) as (T' & A' & P' & Ro' & _).
    rewrite inject_Z_S in Hlo. rewrite !inject_Z_S in Hhi.
    assert (H0 : (0 <= inject_Z (Z.of_nat k))%Q)
      by (change 0%Q with (inject_Z 0); rewrite <- Zle_Qle; lia).
    assert (H1 : (1 < q)%Q) by lra.
    assert (B : (inject_Z (Z.of_nat k) < Qred (q - 1)
                 <= inject_Z (Z.of_nat (S k)))%Q).
    { rewrite Qred_correct, inject_Z_S. split; lra. }
    destruct (IH (step (Tick t) s) (Qred (q - 1)) (Ro' H1) T' B)
      as (Rk & R0 & I0 & A0 & P0 & q' & Tq & Eq).
    split; [exact Rk|].
    change (run (List.repeat (Tick t) (S (S k))) s)
      with (run (List.repeat (Tick t) (S k)) (step (Tick t) s)).
    repeat split; try assumption.
    exists q'. split; [exact Tq|].
    rewrite Eq, Qred_correct, !inject_Z_S. ring.
Qed.

(** X4.  Every countdown from a duration on which the arithmetic is exact
    ends, whole or not: when the timer runs on an interval with TimeLeft = q,
    q a multiple m / 2^j of 2^-j with j <= 52 and m <= 2^53, and
    k < q <= k + 1, the interval is still held after k ticks and the next
    tick releases it, leaving the component Running with
    TimeLeft = q - (k + 1), a value above -1 and at most 0. *)
Theorem countdown_ends (t : timer) (k : nat) (s : state) (q : Q) :
  running_on t s -> timeLeft s = Fin q -> exact_duration q ->
  (inject_Z (Z.of_nat k) < q <= inject_Z (Z.of_nat (S k)))%Q ->
  running_on t (run (List.repeat (Tick t) k) s)
  /\ let s' := run (List.repeat (Tick t) (S k)) s in
     timerRef s' = None /\ intervals s' = ∅ /\ runState s' = Running
     /\ exists q' : Q,
         timeLeft s' = Fin q'
         /\ (q' == q - inject_Z (Z.of_nat (S k)))%Q
         /\ (-1 < q' <= 0)%Q.
Proof.
  intros Ro T _ B.
  destruct (ticks_running_on_Q t k s q Ro T B)
    as (Rk & R0 & I0 & A0 & P0 & q' & Tq & Eq).
  split; [exact Rk|]. cbv zeta.
  split; [exact R0|]. split; [exact I0|].
  split; [apply runState_Running; auto|].
  exists q'. split; [exact Tq|]. split; [exact Eq|].
  destruct B as [Hlo Hhi]. rewrite Eq.
  rewrite inject_Z_S in Hhi |- *. split; lra.
Qed.

Lemma countdown_ends_witness :
  let s := run [Change "2.5"; ClickSet; ClickStart] init in
  let s' := run (List.repeat (Tick 1%positive) 3) s in
  (running_on 1%positive s /\ timeLeft s = Fin (5 # 2)
   /\ exact_duration (5 # 2)
   /\ (inject_Z (Z.of_nat 2) < 5 # 2 <= inject_Z (Z.of_nat 3))%Q)
  /\ timerRef s' = None /\ intervals s' = ∅ /\ runState s' = Running
  /\ exists q' : Q,
      timeLeft s' = Fin q'
      /\ (q' == (5 # 2) - inject_Z (Z.of_nat 3))%Q
      /\ (-1 < q' <= 0)%Q.
Proof.
  intros s s'.
  assert (Ro : running_on 1%positive s) by (vm_compute; auto).
  assert (T : timeLeft s = Fin (5 # 2)) by (vm_compute; reflexivity).
  assert (E : exact_duration (5 # 2)).
  { exists 5, 1%nat. split; [lia|].
    split; [split; [reflexivity | vm_compute; discriminate]|].
    reflexivity. }
  assert (B : (inject_Z (Z.of_nat 2) < 5 # 2 <= inject_Z (Z.of_nat 3))%Q)
    by (split; [reflexivity | discriminate]).
  split; [exact (conj Ro (conj T (conj E B)))|].
  exact (proj2 (countdown_ends 1%positive 2 s (5 # 2) Ro T E B)).
Defined.
